(** * GenZyFits API: a shallow embedding of [main.py] and [schemas.py]

  The request handlers of [main.py] are embedded as functions over an
  explicit document store.  Python floats are IEEE binary64 numbers
  ([spec_float] at precision 53), Python ints are [Z], Python dicts are
  association lists in insertion order, and a handler returns its result
  together with the store it leaves behind, so that what an aborted
  request has or has not written stays visible. *)

From Stdlib Require Import ZArith List String Ascii Bool Lia.
From Stdlib Require Import SpecFloat.
Import ListNotations.

Set Warnings "-register-all".

Local Open Scope string_scope.
Local Open Scope list_scope.
Local Open Scope Z_scope.

(** ** Python floats *)

Module PyFloat.

Definition float := spec_float.

Definition prec : Z := 53.
Definition emax : Z := 1024.

Definition add : float -> float -> float := SFadd prec emax.
Definition mul : float -> float -> float := SFmul prec emax.
Definition div : float -> float -> float := SFdiv prec emax.

(** The literal [0.0]. *)
Definition zero : float := S754_zero false.

(** The double nearest to an integer (ties to even); an infinity when the
    integer is beyond the range of a double. *)
Definition of_Z (n : Z) : float := binary_normalize prec emax n 0 false.

(** Conversion of a Python int, as [float(n)] and the mixed arithmetic
    [x * n] perform it: [None] stands for [OverflowError]. *)
Definition of_int (n : Z) : option float :=
  match of_Z n with
  | S754_infinity _ => None
  | f => Some f
  end.

(** A decimal literal [n / 10^d], such as [4.7] = [dec 47 1]: both
    operands are exact, so the quotient is the correctly rounded double. *)
Definition dec (n : Z) (d : nat) : float :=
  div (of_Z n) (of_Z (10 ^ Z.of_nat d)).



Definition eqb (x y : float) : bool :=
  match x, y with
  | S754_zero a, S754_zero b => Bool.eqb a b
  | S754_infinity a, S754_infinity b => Bool.eqb a b
  | S754_nan, S754_nan => true
  | S754_finite a m e, S754_finite b n f =>
      Bool.eqb a b && Pos.eqb m n && Z.eqb e f
  | _, _ => false
  end.

(** The integer nearest to [a / b] for [0 <= a] and [0 < b], ties to even. *)
Definition div_half_even (a b : Z) : Z :=
  let q := a / b in
  match 2 * (a mod b) ?= b with
  | Lt => q
  | Gt => q + 1
  | Eq => if Z.even q then q else q + 1
  end.

(** [round(x, 2)]: the exact binary value of [x] is rounded to a multiple
    of 1/100, ties to even, and the decimal result is converted back to
    the nearest double.  Infinities and NaN round to themselves and the
    sign of a zero result is kept. *)
Definition round2 (x : float) : float :=
  match x with
  | S754_finite s m e =>
      let k := match e with
               | Zneg p => div_half_even (Zpos m * 100) (2 ^ Zpos p)
               | _ => Zpos m * 100 * 2 ^ e
               end in
      match k with
      | Zpos k' => div (S754_finite s k' 0) (of_Z 100)
      | _ => S754_zero s
      end
  | _ => x
  end.

End PyFloat.

(** ** Store identifiers

  [bson.ObjectId] holds the bytes of an identifier, twelve for the ones the
  store hands out; its string form is their hexadecimal digits.
  [ObjectId] is the constructor applied to a string: a string of
  twenty-four characters is read with [bytes.fromhex], and [None] stands
  for [InvalidId]. *)

Definition objectid := list Byte.byte.

Definition hex_val (c : ascii) : option N :=
let n := N_of_ascii c in
if ((48 <=? n) && (n <=? 57))%N then Some (n - 48)%N
else if ((97 <=? n) && (n <=? 102))%N then Some (n - 87)%N
else if ((65 <=? n) && (n <=? 70))%N then Some (n - 55)%N
else None.

(** ASCII whitespace: tab, line feed, vertical tab, form feed, carriage
    return and space. *)
Definition is_space (c : ascii) : bool :=
  let n := N_of_ascii c in
  (((9 <=? n) && (n <=? 13)) || (n =? 32))%N.

(** [bytes.fromhex]: pairs of hexadecimal digits; ASCII whitespace is
    skipped before a pair and at the end, not inside a pair.  [None]
    stands for [ValueError]. *)
Fixpoint fromhex (s : string) : option (list Byte.byte) :=
  match s with
  | EmptyString => Some []
  | String c rest =>
      if is_space c then fromhex rest
      else
        match rest with
        | String lo rest' =>
            match hex_val c, hex_val lo, fromhex rest' with
            | Some h, Some l, Some bs =>
                match Byte.of_N (16 * h + l) with
                | Some b => Some (b :: bs)
                | None => None
                end
            | _, _, _ => None
            end
        | EmptyString => None
        end
  end.

Definition ObjectId (id_str : string) : option objectid :=
if (String.length id_str =? 24)%nat then fromhex id_str else None.

Definition hex_digit (n : N) : ascii :=
if (n <? 10)%N then ascii_of_N (48 + n) else ascii_of_N (87 + n).

Fixpoint hex (bs : list Byte.byte) : string :=
match bs with
| [] => EmptyString
| b :: rest =>
    let n := Byte.to_N b in
    String (hex_digit (n / 16)) (String (hex_digit (n mod 16)) (hex rest))
end.

(** [str(oid)]. *)
Definition str_oid (o : objectid) : string := hex o.

Definition oid_eqb (a b : objectid) : bool :=
if list_eq_dec Byte.byte_eq_dec a b then true else false.

(** ** Documents *)

Inductive value : Type :=
| VNone
| VBool (b : bool)
| VInt (n : Z)
| VFloat (f : PyFloat.float)
| VStr (s : string)
| VOid (o : objectid)
| VList (l : list value)
| VDict (d : list (string * value)).

Definition dict := list (string * value).

Fixpoint dict_get (d : dict) (k : string) : option value :=
match d with
| [] => None
| (k', v) :: rest => if String.eqb k' k then Some v else dict_get rest k
end.

(** [d.get(k)] and [d.get(k, default)]. *)
Definition get (d : dict) (k : string) : value :=
match dict_get d k with Some v => v | None => VNone end.

Definition get_default (d : dict) (k : string) (default : value) : value :=
match dict_get d k with Some v => v | None => default end.

Definition opt_str (o : option string) : value :=
match o with Some s => VStr s | None => VNone end.

Fixpoint value_eqb (a b : value) {struct a} : bool :=
match a, b with
| VNone, VNone => true
| VBool x, VBool y => Bool.eqb x y
| VInt x, VInt y => Z.eqb x y
| VFloat x, VFloat y => PyFloat.eqb x y
| VStr x, VStr y => String.eqb x y
| VOid x, VOid y => oid_eqb x y
| VList x, VList y =>
    (fix all2 (l1 l2 : list value) {struct l1} : bool :=
       match l1, l2 with
       | [], [] => true
       | v1 :: r1, v2 :: r2 => value_eqb v1 v2 && all2 r1 r2
       | _, _ => false
       end) x y
| VDict x, VDict y =>
    (fix all2 (l1 l2 : list (string * value)) {struct l1} : bool :=
       match l1, l2 with
       | [], [] => true
       | (k1, v1) :: r1, (k2, v2) :: r2 =>
           String.eqb k1 k2 && value_eqb v1 v2 && all2 r1 r2
       | _, _ => false
       end) x y
| _, _ => false
end.

(** A stored document: the identifier the store gave it and its fields. *)
Record document := { _id : objectid; fields : dict }.

(** The value a query sees under a key of a stored document. *)
Definition doc_get (d : document) (k : string) : option value :=
if String.eqb k "_id" then Some (VOid (_id d)) else dict_get (fields d) k.

(** ** The document store

  A store holds named collections, each a list of documents in insertion
  order.  [oplog] is ghost state: every call that reaches the store is
  recorded, so that "before any store query" can be stated. *)

Inductive store_op : Type :=
| OpCount (collection_name : string)
| OpFindOne (collection_name : string) (o : objectid)
| OpFind (collection_name : string) (filt : dict)
| OpInsert (collection_name : string).

Record store := {
collections : list (string * list document);
oplog : list store_op
}.

Fixpoint lookup_coll (cs : list (string * list document)) (name : string)
: list document :=
match cs with
| [] => []
| (n, ds) :: rest => if String.eqb n name then ds else lookup_coll rest name
end.

Fixpoint insert_coll (cs : list (string * list document)) (name : string)
(d : document) : list (string * list document) :=
match cs with
| [] => [(name, [d])]
| (n, ds) :: rest =>
    if String.eqb n name then (n, ds ++ [d]) :: rest
    else (n, ds) :: insert_coll rest name d
end.

(** [db[name]] *)
Definition coll (s : store) (name : string) : list document :=
lookup_coll (collections s) name.

Definition logged (op : store_op) (s : store) : store :=
{| collections := collections s; oplog := oplog s ++ [op] |}.

(** ** Results and the handler monad *)

Inductive pyexc : Type := TypeError | ValueError | OverflowError.

(** What a request ends in: a returned value, an [HTTPException] raised by
  the handler, a body rejected by the framework's validation, or an
  exception nobody catches. *)
Inductive result (A : Type) : Type :=
| Ok (a : A)
| HTTPException (status_code : Z) (detail : string)
| RequestValidationError
| Raise (e : pyexc).

Arguments Ok {A} a.
Arguments HTTPException {A} status_code detail.
Arguments RequestValidationError {A}.
Arguments Raise {A} e.

(** The status line of the response. *)
Definition status {A : Type} (r : result A) : Z :=
match r with
| Ok _ => 200
| HTTPException c _ => c
| RequestValidationError => 422
| Raise _ => 500
end.

Definition is_ok {A : Type} (r : result A) : bool :=
match r with Ok _ => true | _ => false end.

(** Code that runs against an open store: state passing, and the store
  survives an exception. *)
Definition M (A : Type) : Type := store -> result A * store.

Definition ret {A : Type} (a : A) : M A := fun s => (Ok a, s).

Definition raise {A : Type} (status_code : Z) (detail : string) : M A :=
fun s => (HTTPException status_code detail, s).

Definition throw {A : Type} (e : pyexc) : M A := fun s => (Raise e, s).

Definition bind {A B : Type} (m : M A) (k : A -> M B) : M B :=
fun s =>
  match m s with
  | (Ok a, s') => k a s'
  | (HTTPException c d, s') => (HTTPException c d, s')
  | (RequestValidationError, s') => (RequestValidationError, s')
  | (Raise e, s') => (Raise e, s')
  end.

Notation "x <- m ;; k" := (bind m (fun x => k))
(at level 61, m at next level, right associativity).
Notation "m ;;; k" := (bind m (fun _ => k))
(at level 61, right associativity).

(** A pure computation that may raise. *)
Definition lift {A : Type} (r : A + pyexc) : M A :=
fun s =>
  match r with
  | inl a => (Ok a, s)
  | inr e => (Raise e, s)
  end.

Fixpoint for_each {A : Type} (body : A -> M unit) (l : list A) : M unit :=
match l with
| [] => ret tt
| x :: rest => body x ;;; for_each body rest
end.

(** A handler starts from the process-wide handle [db], which is [None]
  when no connection was configured, and leaves a handle behind. *)
Definition handler (A : Type) : Type := option store -> result A * option store.

Definition run {A : Type} (m : M A) (s : store) : result A * option store :=
let (r, s') := m s in (r, Some s').

(** ** Driver calls *)

(** [db[name].count_documents({})] *)
Definition count_documents (collection_name : string) : M Z :=
fun s => (Ok (Z.of_nat (List.length (coll s collection_name))),
          logged (OpCount collection_name) s).

(** [db[name].find_one({"_id": o})] *)
Definition find_one (collection_name : string) (o : objectid)
: M (option document) :=
fun s => (Ok (find (fun d => oid_eqb (_id d) o) (coll s collection_name)),
          logged (OpFindOne collection_name o) s).

(** ** Field declarations and input models

  A request body arrives with its fields already of their JSON types; a
  model checks each field against the constraint its declaration carries
  and fills in defaults.  [None] stands for [ValidationError]. *)

Module Pydantic.

(** [int], or [Field(..., ge=a, le=b)] *)
Record IntField := { ge : option Z; le : option Z }.

Definition check_int (f : IntField) (n : Z) : bool :=
  match ge f with Some a => a <=? n | None => true end
  && match le f with Some b => n <=? b | None => true end.

(** [str], or [Literal[...]] *)
Record StrField := { literal : option (list string) }.

Definition check_str (f : StrField) (v : string) : bool :=
  match literal f with
  | Some allowed => existsb (String.eqb v) allowed
  | None => true
  end.

Definition check_optional (f : StrField) (v : option string) : bool :=
  match v with Some x => check_str f x | None => true end.

(** A field with a default: the default stands in when the key is absent. *)
Definition with_default {A : Type} (default : A) (v : option A) : A :=
  match v with Some x => x | None => default end.

End Pydantic.

(** [class ReviewIn(BaseModel)] of [main.py] *)
Module ReviewIn.

Record t := {
  product_id : string;
  user_name : string;
  rating : Z;
  comment : option string
}.

(** [rating: int] *)
Definition rating_field : Pydantic.IntField :=
  {| Pydantic.ge := None; Pydantic.le := None |}.

Definition validate (body : t) : option t :=
  if Pydantic.check_int rating_field (rating body) then Some body else None.

Definition model_dump (payload : t) : dict :=
  [("product_id", VStr (product_id payload));
   ("user_name", VStr (user_name payload));
   ("rating", VInt (rating payload));
   ("comment", opt_str (comment payload))].

End ReviewIn.

(** [class Review(BaseModel)] of [schemas.py] *)
Module Review.

(** [rating: int = Field(..., ge=1, le=5)] *)
Definition rating_field : Pydantic.IntField :=
  {| Pydantic.ge := Some 1; Pydantic.le := Some 5 |}.

Definition validate (body : ReviewIn.t) : option ReviewIn.t :=
  if Pydantic.check_int rating_field (ReviewIn.rating body)
  then Some body else None.

End Review.

(** [class CheckoutItem(BaseModel)] of [main.py] *)
Module CheckoutItem.

(** The item as sent: [quantity] may be left out. *)
Record body := {
  body_product_id : string;
  body_size : option string;
  body_quantity : option Z
}.

Record t := {
  product_id : string;
  size : option string;
  quantity : Z
}.

(** [size: Optional[str] = None] *)
Definition size_field : Pydantic.StrField := {| Pydantic.literal := None |}.

(** [quantity: int = 1] *)
Definition quantity_field : Pydantic.IntField :=
  {| Pydantic.ge := None; Pydantic.le := None |}.

Definition validate (b : body) : option t :=
  let q := Pydantic.with_default 1 (body_quantity b) in
  if Pydantic.check_optional size_field (body_size b)
     && Pydantic.check_int quantity_field q
  then Some {| product_id := body_product_id b;
               size := body_size b;
               quantity := q |}
  else None.

End CheckoutItem.

(** [class OrderItem(BaseModel)] of [schemas.py], as far as it constrains
  the fields an item of a checkout request has. *)
Module OrderItem.

(** [size: Optional[Literal['XS','S','M','L','XL']] = None] *)
Definition size_field : Pydantic.StrField :=
  {| Pydantic.literal := Some ["XS"; "S"; "M"; "L"; "XL"] |}.

(** [quantity: int = Field(1, ge=1)] *)
Definition quantity_field : Pydantic.IntField :=
  {| Pydantic.ge := Some 1; Pydantic.le := None |}.

Definition validate (b : CheckoutItem.body) : option CheckoutItem.t :=
  let q := Pydantic.with_default 1 (CheckoutItem.body_quantity b) in
  if Pydantic.check_optional size_field (CheckoutItem.body_size b)
     && Pydantic.check_int quantity_field q
  then Some {| CheckoutItem.product_id := CheckoutItem.body_product_id b;
               CheckoutItem.size := CheckoutItem.body_size b;
               CheckoutItem.quantity := q |}
  else None.

End OrderItem.

(** [class CheckoutRequest(BaseModel)] of [main.py] *)
Module CheckoutRequest.

Record body := {
  body_email : string;
  body_items : list CheckoutItem.body
}.

Record t := {
  email : string;
  items : list CheckoutItem.t
}.

Fixpoint validate_items (l : list CheckoutItem.body)
  : option (list CheckoutItem.t) :=
  match l with
  | [] => Some []
  | b :: rest =>
      match CheckoutItem.validate b, validate_items rest with
      | Some item, Some items' => Some (item :: items')
      | _, _ => None
      end
  end.

Definition validate (b : body) : option t :=
  match validate_items (body_items b) with
  | Some l => Some {| email := body_email b; items := l |}
  | None => None
  end.

End CheckoutRequest.

(** ** Routes

    The routes of [main.py] that work on the data of the store, each with
    what the request carries. *)

Inductive request : Type :=
| PostSeed
| GetProducts (tag category : option string)
| GetProduct (product_id : string)
| GetReviews (product_id : string)
| PostReviews (body : ReviewIn.t)
| PostCheckout (body : CheckoutRequest.body).

(** ** Concrete data

    A store with a product at 10.0 and one at 5, a third product without a
    price, and a driver that numbers the documents it inserts by the
    length of the operation log.  No price below is a string, so the
    parser of float literals is never consulted. *)

Module Run.

Definition float_of_str (x : string) : option PyFloat.float := None.

Definition oid_of_N (n : N) : objectid :=
  repeat Byte.x00 11
  ++ [match Byte.of_N n with Some b => b | None => Byte.xff end].

Definition new_oid (s : store) : objectid :=
  oid_of_N (128 + N.of_nat (List.length (oplog s))).

Definition shirt : document :=
  {| _id := oid_of_N 1;
     fields := [("title", VStr "Shirt");
                ("price", VFloat (PyFloat.of_Z 10));
                ("category", VStr "Casual");
                ("tags", VList [VStr "new"])] |}.

Definition socks : document :=
  {| _id := oid_of_N 2;
     fields := [("title", VStr "Socks");
                ("price", VInt 5);
                ("category", VStr "Essentials");
                ("tags", VList [])] |}.

Definition sticker : document :=
  {| _id := oid_of_N 3;
     fields := [("title", VStr "Sticker");
                ("category", VStr "Essentials")] |}.

Definition shop : store :=
  {| collections := [("product", [shirt; socks; sticker])]; oplog := [] |}.

Definition empty_store : store := {| collections := []; oplog := [] |}.

Definition shirt_id : string := "000000000000000000000001".
Definition socks_id : string := "000000000000000000000002".
Definition absent_id : string := "0000000000000000000000aa".

Definition item (product_id : string) (size : option string) (quantity : Z)
  : CheckoutItem.t :=
  {| CheckoutItem.product_id := product_id;
     CheckoutItem.size := size;
     CheckoutItem.quantity := quantity |}.

(** [{price 10, qty 2}, {price 5, qty 3}] *)
Definition two_lines : CheckoutRequest.t :=
  {| CheckoutRequest.email := "ann@example.org";
     CheckoutRequest.items := [item shirt_id (Some "M") 2;
                               item socks_id None 3] |}.

Definition with_absent : CheckoutRequest.t :=
  {| CheckoutRequest.email := "ann@example.org";
     CheckoutRequest.items := [item shirt_id None 1;
                               item absent_id None 1] |}.

Definition review_7 : ReviewIn.t :=
  {| ReviewIn.product_id := shirt_id;
     ReviewIn.user_name := "ann";
     ReviewIn.rating := 7;
     ReviewIn.comment := None |}.

Definition item_xxl : CheckoutItem.body :=
  {| CheckoutItem.body_product_id := shirt_id;
     CheckoutItem.body_size := Some "XXL";
     CheckoutItem.body_quantity := Some 1 |}.

Definition item_zero : CheckoutItem.body :=
  {| CheckoutItem.body_product_id := socks_id;
     CheckoutItem.body_size := None;
     CheckoutItem.body_quantity := Some 0 |}.

Definition bad_items : CheckoutRequest.body :=
  {| CheckoutRequest.body_email := "ann@example.org";
     CheckoutRequest.body_items := [item_xxl; item_zero] |}.

Definition review_absent : ReviewIn.t :=
  {| ReviewIn.product_id := absent_id;
     ReviewIn.user_name := "bob";
     ReviewIn.rating := 4;
     ReviewIn.comment := Some "nice" |}.

Definition review_5 : ReviewIn.t :=
  {| ReviewIn.product_id := shirt_id;
     ReviewIn.user_name := "cy";
     ReviewIn.rating := 5;
     ReviewIn.comment := None |}.

(** Twenty-four spaces: not hexadecimal digits, yet read by
    [bytes.fromhex] as no bytes at all. *)
Definition blank_id : string := "                        ".

(** A quantity beyond the range of a double. *)
Definition huge : Z := 10 ^ 400.

Definition huge_order : CheckoutRequest.t :=
  {| CheckoutRequest.email := "ann@example.org";
     CheckoutRequest.items := [item shirt_id None huge] |}.

Definition huge_then_absent : CheckoutRequest.t :=
  {| CheckoutRequest.email := "ann@example.org";
     CheckoutRequest.items := [item shirt_id None huge;
                               item absent_id None 1] |}.

(** A store with one product at 0.1, and three of them in a cart. *)
Definition gum : document :=
  {| _id := oid_of_N 4;
     fields := [("title", VStr "Gum"); ("price", VFloat (PyFloat.dec 1 1))] |}.

Definition gum_id : string := "000000000000000000000004".

Definition kiosk : store :=
  {| collections := [("product", [gum])]; oplog := [] |}.

Definition three_gums : CheckoutRequest.t :=
  {| CheckoutRequest.email := "ann@example.org";
     CheckoutRequest.items := [item gum_id None 3] |}.

(** The shop with one review of the shirt. *)
Definition shop_reviewed : store :=
  {| collections :=
       [("product", [shirt; socks; sticker]);
        ("review", [{| _id := oid_of_N 9;
                       fields := ReviewIn.model_dump review_5 |}])];
     oplog := [] |}.

End Run.

(** ** Persistence access and request handlers *)

Section API.

(** [float(s)] on a string is Python's parser of float literals, and the
    identifier of a new document is chosen by the driver; both are left
    open.  The identifier may depend on everything that happened to the
    store so far. *)
Variable float_of_str : string -> option PyFloat.float.
Variable new_oid : store -> objectid.

(** Modelled from the spec: [create_document] of [database.py], which is
    not among the sources.  It inserts one record into the named
    collection and returns the generated id as a string. *)
Definition create_document (collection_name : string) (data : dict)
  : M string :=
  fun s =>
    let o := new_oid s in
    (Ok (str_oid o),
     {| collections :=
          insert_coll (collections s) collection_name
            {| _id := o; fields := data |};
        oplog := oplog s ++ [OpInsert collection_name] |}).

(** Modelled from the spec: the filter of [get_documents] is equality
    based, each filter key must equal the stored field value, and the
    keys are combined by AND. *)
Definition matches (filt : dict) (d : document) : bool :=
  forallb (fun kv =>
             match doc_get d (fst kv) with
             | Some v => value_eqb v (snd kv)
             | None => false
             end) filt.

(** Modelled from the spec: [get_documents] of [database.py], which is
    not among the sources.  It returns the records of the named
    collection that match the filter, in the order of the store; an
    empty filter matches every record. *)
Definition get_documents (collection_name : string) (filt : dict)
  : M (list document) :=
  fun s => (Ok (filter (matches filt) (coll s collection_name)),
            logged (OpFind collection_name filt) s).

(** [float(v)]; the right side is the exception Python raises. *)
Definition py_float (v : value) : PyFloat.float + pyexc :=
  match v with
  | VFloat f => inl f
  | VInt n =>
      match PyFloat.of_int n with
      | Some f => inl f
      | None => inr OverflowError
      end
  | VBool b => inl (if b then PyFloat.of_Z 1 else PyFloat.zero)
  | VStr x =>
      match float_of_str x with
      | Some f => inl f
      | None => inr ValueError
      end
  | _ => inr TypeError
  end.

(** [x * n] for a float [x] and an int [n]: the int is converted first.
    [int(n)] of an int is [n] itself. *)
Definition mul_int (x : PyFloat.float) (n : Z) : PyFloat.float + pyexc :=
  match PyFloat.of_int n with
  | Some f => inl (PyFloat.mul x f)
  | None => inr OverflowError
  end.

(** The dict of a stored document after [p["_id"] = str(p["_id"])]. *)
Definition serialize (d : document) : dict :=
  ("_id", VStr (str_oid (_id d))) :: fields d.

Definition oid (id_str : string) : M objectid :=
  match ObjectId id_str with
  | Some o => ret o
  | None => raise 400 "Invalid id"
  end.

Definition sample : list dict :=
  [ [("title", VStr "Neon Flux Hoodie");
     ("slug", VStr "neon-flux-hoodie");
     ("description", VStr "Oversized hoodie with neon gradient print");
     ("price", VFloat (PyFloat.dec 890 1));
     ("category", VStr "Streetwear");
     ("images", VList
        [VStr "https://images.unsplash.com/photo-1541099649105-f69ad21f3246?q=80&w=1400&auto=format&fit=crop";
         VStr "https://images.unsplash.com/photo-1520975922284-7b683db0352b?q=80&w=1400&auto=format&fit=crop"]);
     ("sizes", VList [VStr "S"; VStr "M"; VStr "L"; VStr "XL"]);
     ("tags", VList [VStr "best"; VStr "seasonal"]);
     ("rating", VFloat (PyFloat.dec 47 1));
     ("rating_count", VInt 243);
     ("in_stock", VBool true)];
    [("title", VStr "Ripple Tee");
     ("slug", VStr "ripple-tee");
     ("description", VStr "Boxy fit tee with wave puff print");
     ("price", VFloat (PyFloat.dec 390 1));
     ("category", VStr "Casual");
     ("images", VList
        [VStr "https://images.unsplash.com/photo-1520975693416-35a6a199d470?q=80&w=1400&auto=format&fit=crop"]);
     ("sizes", VList [VStr "XS"; VStr "S"; VStr "M"; VStr "L"]);
     ("tags", VList [VStr "new"]);
     ("rating", VFloat (PyFloat.dec 44 1));
     ("rating_count", VInt 91);
     ("in_stock", VBool true)];
    [("title", VStr "Core Knit Crew");
     ("slug", VStr "core-knit-crew");
     ("description", VStr "Premium heavyweight knit crewneck");
     ("price", VFloat (PyFloat.dec 690 1));
     ("category", VStr "Essentials");
     ("images", VList
        [VStr "https://images.unsplash.com/photo-1521577352947-9bb58764b69a?q=80&w=1400&auto=format&fit=crop"]);
     ("sizes", VList [VStr "S"; VStr "M"; VStr "L"; VStr "XL"]);
     ("tags", VList [VStr "best"]);
     ("rating", VFloat (PyFloat.dec 48 1));
     ("rating_count", VInt 512);
     ("in_stock", VBool true)] ].

(** [POST /seed] *)
Definition seed_products : handler dict :=
  fun db =>
    match db with
    | None => (HTTPException 500 "Database not available", None)
    | Some s =>
        run (count <- count_documents "product" ;;
             if 0 <? count
             then ret [("seeded", VBool false);
                       ("message", VStr "Products already exist")]
             else
               for_each (fun p => create_document "product" p ;;; ret tt)
                        sample ;;;
               ret [("seeded", VBool true);
                    ("count", VInt (Z.of_nat (List.length sample)))]) s
    end.

(** [if v: filt[k] = v]: [None] and the empty string are both falsy. *)
Definition set_if (v : option string) (k : string) (filt : dict) : dict :=
  match v with
  | Some x => if String.eqb x "" then filt else filt ++ [(k, VStr x)]
  | None => filt
  end.

(** [GET /products] *)
Definition list_products (tag category : option string)
  : handler (list dict) :=
  fun db =>
    match db with
    | None => (Ok [], None)
    | Some s =>
        run (let filt := [] in
             let filt := set_if tag "tags" filt in
             let filt := set_if category "category" filt in
             prods <- get_documents "product" filt ;;
             ret (map serialize prods)) s
    end.

(** [GET /products/{product_id}] *)
Definition get_product (product_id : string) : handler dict :=
  fun db =>
    match db with
    | None => (HTTPException 500 "Database not available", None)
    | Some s =>
        run (o <- oid product_id ;;
             doc <- find_one "product" o ;;
             match doc with
             | None => raise 404 "Product not found"
             | Some doc => ret (serialize doc)
             end) s
    end.

(** [GET /reviews/{product_id}] *)
Definition get_reviews (product_id : string) : handler (list dict) :=
  fun db =>
    match db with
    | None => (Ok [], None)
    | Some s =>
        run (items <- get_documents "review"
                        [("product_id", VStr product_id)] ;;
             ret (map serialize items)) s
    end.

(** [create_review], the body of [POST /reviews] *)
Definition create_review (payload : ReviewIn.t) : handler dict :=
  fun db =>
    match db with
    | None => (HTTPException 500 "Database not available", None)
    | Some s =>
        run (o <- oid (ReviewIn.product_id payload) ;;
             prod <- find_one "product" o ;;
             match prod with
             | None => raise 400 "Invalid product"
             | Some _ =>
                 review_id <- create_document "review"
                                (ReviewIn.model_dump payload) ;;
                 ret [("_id", VStr review_id)]
             end) s
    end.

(** The loop of [fast_checkout] over [req.items], with the running
    [total] and the [line_items] gathered so far. *)
Fixpoint checkout_loop (items : list CheckoutItem.t)
  (total : PyFloat.float) (line_items : list value)
  : M (PyFloat.float * list value) :=
  match items with
  | [] => ret (total, line_items)
  | item :: rest =>
      o <- oid (CheckoutItem.product_id item) ;;
      prod <- find_one "product" o ;;
      match prod with
      | None =>
          raise 400 (String.append "Invalid product: "
                                   (CheckoutItem.product_id item))
      | Some prod =>
          price <- lift (py_float
                           (get_default (fields prod) "price" (VInt 0))) ;;
          line_total <- lift (mul_int price (CheckoutItem.quantity item)) ;;
          checkout_loop rest (PyFloat.add total line_total)
            (line_items ++
               [VDict [("title", get (fields prod) "title");
                       ("size", opt_str (CheckoutItem.size item));
                       ("quantity", VInt (CheckoutItem.quantity item));
                       ("unit_price", VFloat price);
                       ("line_total", VFloat line_total)]])
      end
  end.

Definition order_doc (email : string) (line_items : list value)
  (total : PyFloat.float) : dict :=
  [("email", VStr email);
   ("items", VList line_items);
   ("total", VFloat (PyFloat.round2 total));
   ("status", VStr "created")].

(** [fast_checkout], the body of [POST /checkout] *)
Definition fast_checkout (req : CheckoutRequest.t) : handler dict :=
  fun db =>
    match db with
    | None => (HTTPException 500 "Database not available", None)
    | Some s =>
        run (r <- checkout_loop (CheckoutRequest.items req)
                    PyFloat.zero [] ;;
             let '(total, line_items) := r in
             order_id <- create_document "order"
                           (order_doc (CheckoutRequest.email req)
                                      line_items total) ;;
             ret [("order_id", VStr order_id);
                  ("total", VFloat (PyFloat.round2 total))]) s
    end.

(** The endpoints that take a body: the framework validates it against
    the model the handler declares for its parameter, and calls the
    handler only with a valid one. *)
Definition post_reviews (body : ReviewIn.t) : handler dict :=
  fun db =>
    match ReviewIn.validate body with
    | Some payload => create_review payload db
    | None => (RequestValidationError, db)
    end.

Definition post_checkout (body : CheckoutRequest.body) : handler dict :=
  fun db =>
    match CheckoutRequest.validate body with
    | Some req => fast_checkout req db
    | None => (RequestValidationError, db)
    end.


(** ** Notions the statements use *)

(** The product a [product_id] of a request resolves to: the id parses
    and the product collection holds a document under it. *)
Definition resolve (s : store) (product_id : string) : option document :=
  match ObjectId product_id with
  | Some o => find (fun d => oid_eqb (_id d) o) (coll s "product")
  | None => None
  end.

(** The stored document has string [v] under key [k]. *)
Definition has (d : document) (k v : string) : bool :=
  match doc_get d k with
  | Some x => value_eqb x (VStr v)
  | None => false
  end.

(** The store after [n] calls of [POST /seed]. *)
Fixpoint repeat_seed (n : nat) (db : option store) : option store :=
  match n with
  | O => db
  | S k => repeat_seed k (snd (seed_products db))
  end.






(** C8 as the specification states it: with a
    [category] parameter the response holds exactly the products whose
    category equals it, and with a [tag] as well those that match both. *)
Definition category_filter_exact (s : store) (tag : option string)
  (category : string) : Prop :=
  fst (list_products tag (Some category) (Some s))
  = Ok (map serialize
          (filter (fun d =>
                     has d "category" category
                     && match tag with
                        | Some t => has d "tags" t
                        | None => true
                        end)
                  (coll s "product"))).

(** What the loop of [fast_checkout] does with an item whose product was
    found: it goes on with the next item, or stops on the exception that
    [float] or the product raised. *)
Definition checkout_line (prod : document) (item : CheckoutItem.t)
  (rest : list CheckoutItem.t) (total : PyFloat.float)
  (line_items : list value) : M (PyFloat.float * list value) :=
  fun s =>
    match py_float (get_default (fields prod) "price" (VInt 0)) with
    | inl price =>
        match mul_int price (CheckoutItem.quantity item) with
        | inl line_total =>
            checkout_loop rest (PyFloat.add total line_total)
              (line_items ++
                 [VDict [("title", get (fields prod) "title");
                         ("size", opt_str (CheckoutItem.size item));
                         ("quantity", VInt (CheckoutItem.quantity item));
                         ("unit_price", VFloat price);
                         ("line_total", VFloat line_total)]]) s
        | inr e => (Raise e, s)
        end
    | inr e => (Raise e, s)
    end.

(** Python computes a line total for the item: the price of the product it
    resolves to converts to a float and the product with the quantity is
    defined. *)
Definition line_computes (s : store) (item : CheckoutItem.t) : Prop :=
  forall prod,
    resolve s (CheckoutItem.product_id item) = Some prod ->
    exists price line_total,
      py_float (get_default (fields prod) "price" (VInt 0)) = inl price
      /\ mul_int price (CheckoutItem.quantity item) = inl line_total.

(** The products the items of a request resolve to, when all of them do. *)
Fixpoint resolve_all (s : store) (items : list CheckoutItem.t)
  : option (list document) :=
  match items with
  | [] => Some []
  | item :: rest =>
      match resolve s (CheckoutItem.product_id item), resolve_all s rest with
      | Some prod, Some prods => Some (prod :: prods)
      | _, _ => None
      end
  end.

(** The price of a product whose [price] field holds a number. *)
Definition price_of (prod : document) : option PyFloat.float :=
  match dict_get (fields prod) "price" with
  | Some (VFloat f) => Some f
  | Some (VInt n) => PyFloat.of_int n
  | _ => None
  end.

(** The sum over the items, in the order of the request and starting from
    [acc], of the price of the resolved product times the quantity. *)
Fixpoint sum_price_quantity (prods : list document)
  (items : list CheckoutItem.t) (acc : PyFloat.float)
  : option PyFloat.float :=
  match prods, items with
  | [], [] => Some acc
  | prod :: prods', item :: rest =>
      match price_of prod, PyFloat.of_int (CheckoutItem.quantity item) with
      | Some price, Some q =>
          sum_price_quantity prods' rest
            (PyFloat.add acc (PyFloat.mul price q))
      | _, _ => None
      end
  | _, _ => None
  end.

(** The JSON body of a response. *)
Definition json_list (l : list dict) : value := VList (map VDict l).

Definition respond {A : Type} (to_json : A -> value)
  (out : result A * option store) : result value * option store :=
  (match fst out with
   | Ok a => Ok (to_json a)
   | HTTPException c d => HTTPException c d
   | RequestValidationError => RequestValidationError
   | Raise e => Raise e
   end, snd out).

(** The application: a request goes to the handler its route names. *)
Definition serve (req : request) : handler value :=
  fun db =>
    match req with
    | PostSeed => respond VDict (seed_products db)
    | GetProducts tag category =>
        respond json_list (list_products tag category db)
    | GetProduct product_id => respond VDict (get_product product_id db)
    | GetReviews product_id => respond json_list (get_reviews product_id db)
    | PostReviews body => respond VDict (post_reviews body db)
    | PostCheckout body => respond VDict (post_checkout body db)
    end.

(** The handle after a sequence of requests, served one after the other. *)
Fixpoint serve_all (reqs : list request) (db : option store) : option store :=
  match reqs with
  | [] => db
  | req :: rest => serve_all rest (snd (serve req db))
  end.

(** What a request may do to the collections of a store: nothing, fill an
    empty product collection with the samples, add one review of a product
    that exists, or add one order. *)
Inductive effect : request -> store -> store -> Prop :=
| effect_none (req : request) (s s' : store) :
    collections s' = collections s ->
    effect req s s'
| effect_seed (s s' : store) :
    coll s "product" = [] ->
    map fields (coll s' "product") = sample ->
    (forall other, "product" <> other -> coll s' other = coll s other) ->
    effect PostSeed s s'
| effect_review (body : ReviewIn.t) (s s' : store) (o : objectid)
    (prod : document) :
    resolve s (ReviewIn.product_id body) = Some prod ->
    coll s' "review"
    = coll s "review" ++ [{| _id := o; fields := ReviewIn.model_dump body |}] ->
    (forall other, "review" <> other -> coll s' other = coll s other) ->
    effect (PostReviews body) s s'
| effect_order (body : CheckoutRequest.body) (s s' : store) (order : document) :
    coll s' "order" = coll s "order" ++ [order] ->
    (forall other, "order" <> other -> coll s' other = coll s other) ->
    effect (PostCheckout body) s s'.

(** A stored review names, under [product_id], a product of the store. *)
Definition references_product (s : store) (review : document) : Prop :=
  exists product_id,
    dict_get (fields review) "product_id" = Some (VStr product_id)
    /\ resolve s product_id <> None.

Definition reviews_reference_products (s : store) : Prop :=
  Forall (references_product s) (coll s "review").

(** The product collection is empty or holds the samples of [POST /seed]. *)
Definition catalogue_is_seed (s : store) : Prop :=
  coll s "product" = [] \/ map fields (coll s "product") = sample.

(** The line of an order that [fast_checkout] records for an item. *)
Definition line_for (item : CheckoutItem.t) (line : value) : Prop :=
  exists title price q,
    PyFloat.of_int (CheckoutItem.quantity item) = Some q
    /\ line = VDict [("title", title);
                     ("size", opt_str (CheckoutItem.size item));
                     ("quantity", VInt (CheckoutItem.quantity item));
                     ("unit_price", VFloat price);
                     ("line_total", VFloat (PyFloat.mul price q))].

(** [line["line_total"]] of a recorded line. *)
Definition line_total_of (line : value) : PyFloat.float :=
  match line with
  | VDict d =>
      match dict_get d "line_total" with
      | Some (VFloat f) => f
      | _ => PyFloat.zero
      end
  | _ => PyFloat.zero
  end.

(** The lookups the loop of [fast_checkout] sends to the store for a list
    of items: one per item whose id parses. *)
Definition lookups (items : list CheckoutItem.t) : list store_op :=
  flat_map (fun item =>
              match ObjectId (CheckoutItem.product_id item) with
              | Some o => [OpFindOne "product" o]
              | None => []
              end) items.

(** The detail of the 400 that an unresolvable item is answered with. *)
Definition unresolved_detail (item : CheckoutItem.t) : string :=
  match ObjectId (CheckoutItem.product_id item) with
  | Some _ => String.append "Invalid product: " (CheckoutItem.product_id item)
  | None => "Invalid id"
  end.


(** C1 as the specification states it: a checkout whose items all resolve
    is answered with a total. *)
Definition resolving_checkout_succeeds (s : store) (req : CheckoutRequest.t)
  : Prop :=
  resolve_all s (CheckoutRequest.items req) <> None ->
  is_ok (fst (fast_checkout req (Some s))) = true.

(** C2 as the specification states it: a checkout with an item that does
    not resolve is answered with a status of the 400 class. *)
Definition unresolved_gives_4xx (s : store) (req : CheckoutRequest.t) : Prop :=
  Exists (fun item => resolve s (CheckoutItem.product_id item) = None)
         (CheckoutRequest.items req) ->
  400 <= status (fst (fast_checkout req (Some s))) < 500.

(** [k] is the integer nearest to a hundred times [m * 2^e], the even one
    of the two when it lies half way. *)
Definition nearest_hundredth (m : positive) (e : Z) (k : Z) : Prop :=
  let a := Zpos m * 100 * 2 ^ Z.max e 0 in
  let d := 2 ^ Z.max (- e) 0 in
  2 * Z.abs (a - k * d) <= d
  /\ (2 * Z.abs (a - k * d) = d -> Z.even k = true).

(** [y] is [x] rounded to two decimals: for a finite [x] of magnitude
    [m * 2^e], the double quotient by 100 of the nearest number [k] of
    hundredths, with the sign of [x]; an infinity or NaN is left as it
    is. *)
Definition rounded_to_cents (x y : PyFloat.float) : Prop :=
  match x with
  | S754_finite sign m e =>
      exists k,
        nearest_hundredth m e k
        /\ y = match k with
               | Zpos k' =>
                   PyFloat.div (S754_finite sign k' 0) (PyFloat.of_Z 100)
               | _ => S754_zero sign
               end
  | _ => y = x
  end.

(** ** Collections *)

Lemma lookup_insert_same (cs : list (string * list document))
  (name : string) (d : document) :
  lookup_coll (insert_coll cs name d) name = lookup_coll cs name ++ [d].
Proof.
  induction cs as [|[n ds] cs IH]; simpl.
  - now rewrite String.eqb_refl.
  - destruct (String.eqb n name) eqn:E; simpl; rewrite E; auto.
Qed.

Lemma lookup_insert_other (cs : list (string * list document))
  (name other : string) (d : document) :
  name <> other ->
  lookup_coll (insert_coll cs name d) other = lookup_coll cs other.
Proof.
  intros Hne.
  induction cs as [|[n ds] cs IH]; simpl.
  - destruct (String.eqb name other) eqn:E; auto.
    apply String.eqb_eq in E. contradiction.
  - destruct (String.eqb n name) eqn:E; simpl.
    + apply String.eqb_eq in E. subst n.
      destruct (String.eqb name other) eqn:E'; auto.
      apply String.eqb_eq in E'. contradiction.
    + destruct (String.eqb n other); auto.
Qed.

Lemma coll_logged (op : store_op) (s : store) (name : string) :
  coll (logged op s) name = coll s name.
Proof. reflexivity. Qed.

Lemma resolve_logged (op : store_op) (s : store) (product_id : string) :
  resolve (logged op s) product_id = resolve s product_id.
Proof. reflexivity. Qed.

(** ** Identifiers *)








(** ** Requests without a store *)

Lemma validate_items_total (l : list CheckoutItem.body) :
  exists items, CheckoutRequest.validate_items l = Some items.
Proof.
  induction l as [|b l [items IH]]; simpl.
  - now exists [].
  - rewrite IH. unfold CheckoutItem.validate.
    destruct (CheckoutItem.body_size b); simpl; eauto.
Qed.

(** C7: when the store is unavailable ([db] is [None]), [GET /products]
    and [GET /reviews/{product_id}] answer with an empty list and success,
    while [POST /seed], [GET /products/{id}], [POST /reviews] and
    [POST /checkout] answer 500; nothing is opened or written. *)
Theorem store_unavailable :
  (forall tag category,
      list_products tag category None = (Ok [], None)
      /\ status (fst (list_products tag category None)) = 200)
  /\ (forall product_id,
         get_reviews product_id None = (Ok [], None)
         /\ status (fst (get_reviews product_id None)) = 200)
  /\ (status (fst (seed_products None)) = 500
      /\ snd (seed_products None) = None)
  /\ (forall product_id,
         status (fst (get_product product_id None)) = 500
         /\ snd (get_product product_id None) = None)
  /\ (forall body,
         status (fst (post_reviews body None)) = 500
         /\ snd (post_reviews body None) = None)
  /\ (forall body,
         status (fst (post_checkout body None)) = 500
         /\ snd (post_checkout body None) = None).
Proof.
  repeat split.
  - unfold post_checkout, CheckoutRequest.validate.
    destruct (validate_items_total (CheckoutRequest.body_items body))
      as [items E].
    now rewrite E.
  - unfold post_checkout, CheckoutRequest.validate.
    destruct (validate_items_total (CheckoutRequest.body_items body))
      as [items E].
    now rewrite E.
Qed.

(** ** Listing products *)

Lemma filter_all {A : Type} (f : A -> bool) (l : list A) :
  (forall x, f x = true) -> filter f l = l.
Proof.
  intros H. induction l as [|x l IH]; simpl; [reflexivity|].
  now rewrite H, IH.
Qed.

Lemma has_spec (d : document) (k v : string) :
  has d k v = true <-> doc_get d k = Some (VStr v).
Proof.
  unfold has. destruct (doc_get d k) as [x|]; [|split; discriminate].
  destruct x; simpl; try (split; discriminate).
  rewrite String.eqb_eq. split; [now intros ->|now intros [= ->]].
Qed.

(** C9: an empty-string [tag] or [category] is treated as absent.  The
    request is handled as the one without the parameter, and with both
    empty the filter handed to the store is empty and every product is
    returned. *)
Theorem list_products_empty_string_is_absent
  (db : option store) (tag category : option string) :
  list_products (Some "") category db = list_products None category db
  /\ list_products tag (Some "") db = list_products tag None db
  /\ forall s,
      list_products (Some "") (Some "") (Some s)
      = (Ok (map serialize (coll s "product")),
         Some (logged (OpFind "product" []) s)).
Proof.
  repeat split.
  intros s. unfold list_products, run, bind, get_documents, ret.
  cbn [set_if String.eqb]. now rewrite filter_all.
Qed.

(** The filter [list_products] builds, as a predicate on documents. *)
Lemma matches_set_if (tag category : option string) (d : document) :
  matches (set_if category "category" (set_if tag "tags" [])) d
  = match tag with
    | Some t => String.eqb t "" || has d "tags" t
    | None => true
    end
    && match category with
       | Some c => String.eqb c "" || has d "category" c
       | None => true
       end.
Proof.
  unfold set_if, matches, has.
  destruct tag as [t|], category as [c|];
    try destruct (String.eqb t ""); try destruct (String.eqb c "");
    cbn [app forallb fst snd orb andb];
    repeat rewrite andb_true_r; reflexivity.
Qed.

(** C8, amended: for every stored set of products and every non-empty
    [category], [GET /products] returns exactly the products whose
    category field equals it (string equality, so case-sensitive), in the
    order of the store; a non-empty [tag] supplied with it must match as
    well, and an empty [tag] is ignored. *)
Theorem list_products_category (s : store) (tag : option string)
  (category : string) :
  category <> "" ->
  fst (list_products tag (Some category) (Some s))
  = Ok (map serialize
          (filter (fun d =>
                     has d "category" category
                     && match tag with
                        | Some t => String.eqb t "" || has d "tags" t
                        | None => true
                        end)
                  (coll s "product"))).
Proof.
  intros Hne.
  unfold list_products, run, bind, get_documents, ret. cbn [fst].
  do 2 f_equal. apply filter_ext. intros d.
  rewrite matches_set_if.
  destruct (String.eqb category "") eqn:E.
  - apply String.eqb_eq in E. contradiction.
  - cbn [orb]. apply andb_comm.
Qed.

(** ** Fetching one product *)




(** ** Seeding *)

Lemma for_each_create (l : list dict) (s : store) :
  exists s',
    for_each (fun p => create_document "product" p ;;; ret tt) l s
    = (Ok tt, s')
    /\ map fields (coll s' "product") = map fields (coll s "product") ++ l
    /\ forall other, "product" <> other -> coll s' other = coll s other.
Proof.
  revert s. induction l as [|p l IH]; intros s.
  - exists s. cbn. rewrite app_nil_r. auto.
  - cbn [for_each]. unfold bind at 1. unfold bind at 1.
    unfold create_document at 1. cbn [ret].
    match goal with
    | |- context [for_each _ l ?s1] => destruct (IH s1) as (s' & E & P & O)
    end.
    exists s'. split; [exact E|]. split.
    + rewrite P. unfold coll. cbn [collections].
      rewrite lookup_insert_same, map_app, <- app_assoc. reflexivity.
    + intros other Hne. rewrite (O other Hne). unfold coll.
      cbn [collections]. now apply lookup_insert_other.
Qed.

Lemma seed_products_empty (s : store) :
  coll s "product" = [] ->
  exists s',
    seed_products (Some s)
    = (Ok [("seeded", VBool true); ("count", VInt 3)], Some s')
    /\ map fields (coll s' "product") = sample
    /\ forall other, "product" <> other -> coll s' other = coll s other.
Proof.
  intros H. unfold seed_products, run.
  unfold bind at 1. unfold count_documents. rewrite H.
  cbn [List.length Z.of_nat Z.ltb Z.compare].
  unfold bind at 1.
  destruct (for_each_create sample (logged (OpCount "product") s))
    as (s' & E & P & O).
  rewrite E. cbn [ret]. exists s'. split; [reflexivity|]. split.
  - rewrite P, coll_logged, H. reflexivity.
  - intros other Hne. now rewrite (O other Hne).
Qed.

Lemma seed_products_nonempty (s : store) :
  coll s "product" <> [] ->
  seed_products (Some s)
  = (Ok [("seeded", VBool false); ("message", VStr "Products already exist")],
     Some (logged (OpCount "product") s)).
Proof.
  intros H. unfold seed_products, run.
  unfold bind at 1. unfold count_documents.
  destruct (coll s "product") as [|d l]; [now elim H|].
  reflexivity.
Qed.

Lemma repeat_seed_nonempty (n : nat) (s : store) :
  coll s "product" <> [] ->
  exists s',
    repeat_seed n (Some s) = Some s' /\ collections s' = collections s.
Proof.
  revert s. induction n as [|n IH]; intros s H.
  - now exists s.
  - cbn [repeat_seed]. rewrite (seed_products_nonempty s H). cbn [snd].
    destruct (IH (logged (OpCount "product") s)) as (s' & E & C).
    + now rewrite coll_logged.
    + exists s'. now split.
Qed.

(** C6: [POST /seed] inserts the three sample products when the product
    collection is empty and reports [seeded: true, count: 3]; when the
    collection is not empty it inserts nothing and reports
    [seeded: false].  Hence after any number of calls on a store that
    started without products the collection holds exactly the three
    samples, and a store that had products keeps exactly those. *)
Theorem seed_products_idempotent (s : store) :
  (coll s "product" = [] ->
   exists s',
     seed_products (Some s)
     = (Ok [("seeded", VBool true); ("count", VInt 3)], Some s')
     /\ map fields (coll s' "product") = sample
     /\ List.length (coll s' "product") = 3%nat)
  /\ (coll s "product" <> [] ->
      exists s',
        seed_products (Some s)
        = (Ok [("seeded", VBool false);
               ("message", VStr "Products already exist")], Some s')
        /\ collections s' = collections s)
  /\ (forall n,
         exists s',
           repeat_seed (S n) (Some s) = Some s'
           /\ (coll s "product" = [] ->
               map fields (coll s' "product") = sample
               /\ List.length (coll s' "product") = 3%nat)
           /\ (coll s "product" <> [] ->
               coll s' "product" = coll s "product")).
Proof.
  assert (L : forall s', map fields (coll s' "product") = sample ->
                         List.length (coll s' "product") = 3%nat).
  { intros s' E. rewrite <- (length_map fields), E. reflexivity. }
  split; [|split].
  - intros H. destruct (seed_products_empty s H) as (s' & E & P & _).
    exists s'. auto.
  - intros H. rewrite (seed_products_nonempty s H).
    now exists (logged (OpCount "product") s).
  - intros n. cbn [repeat_seed].
    destruct (coll s "product") as [|d l] eqn:H.
    + destruct (seed_products_empty s H) as (s1 & E & P & _).
      rewrite E. cbn [snd].
      assert (N1 : coll s1 "product" <> []).
      { intros Z. rewrite Z in P. discriminate. }
      destruct (repeat_seed_nonempty n s1 N1) as (s' & R & C).
      exists s'. split; [exact R|]. split.
      * intros _. unfold coll in *. rewrite C. auto.
      * intros Z. now elim Z.
    + assert (N0 : coll s "product" <> []) by (rewrite H; discriminate).
      rewrite (seed_products_nonempty s N0). cbn [snd].
      destruct (repeat_seed_nonempty n (logged (OpCount "product") s))
        as (s' & R & C).
      * now rewrite coll_logged.
      * exists s'. split; [exact R|]. split.
        -- discriminate.
        -- intros _. unfold coll in *. rewrite C. exact H.
Qed.

(** ** Checkout *)

Lemma resolve_all_logged (op : store_op) (s : store)
  (items : list CheckoutItem.t) :
  resolve_all (logged op s) items = resolve_all s items.
Proof.
  induction items as [|item rest IH]; [reflexivity|].
  cbn [resolve_all]. now rewrite IH, resolve_logged.
Qed.

Lemma checkout_loop_found (s : store) (item : CheckoutItem.t)
  (rest : list CheckoutItem.t) (total : PyFloat.float)
  (line_items : list value) (prod : document) :
  resolve s (CheckoutItem.product_id item) = Some prod ->
  exists o,
    ObjectId (CheckoutItem.product_id item) = Some o
    /\ checkout_loop (item :: rest) total line_items s
       = checkout_line prod item rest total line_items
           (logged (OpFindOne "product" o) s).
Proof.
  unfold resolve. intros R.
  destruct (ObjectId (CheckoutItem.product_id item)) as [o|] eqn:E;
    [|discriminate].
  exists o. split; [reflexivity|].
  cbn [checkout_loop]. unfold bind at 1. unfold oid. rewrite E. cbn [ret].
  unfold bind at 1. unfold find_one. rewrite R.
  unfold checkout_line, bind, lift.
  destruct (py_float (get_default (fields prod) "price" (VInt 0)));
    [|reflexivity].
  destruct (mul_int f (CheckoutItem.quantity item)); reflexivity.
Qed.

Lemma checkout_loop_not_found (s : store) (item : CheckoutItem.t)
  (rest : list CheckoutItem.t) (total : PyFloat.float)
  (line_items : list value) :
  resolve s (CheckoutItem.product_id item) = None ->
  exists detail s',
    checkout_loop (item :: rest) total line_items s
    = (HTTPException 400 detail, s')
    /\ collections s' = collections s.
Proof.
  unfold resolve. intros R.
  cbn [checkout_loop]. unfold bind at 1. unfold oid.
  destruct (ObjectId (CheckoutItem.product_id item)) as [o|] eqn:E.
  - cbn [ret]. unfold bind at 1. unfold find_one. rewrite R.
    unfold raise. eauto.
  - unfold raise. eauto.
Qed.

(** The loop only reads: whatever it ends in, the collections are as they
    were. *)
Lemma checkout_loop_collections (items : list CheckoutItem.t)
  (total : PyFloat.float) (line_items : list value) (s : store) :
  collections (snd (checkout_loop items total line_items s)) = collections s.
Proof.
  revert total line_items s.
  induction items as [|item rest IH]; intros total line_items s;
    [reflexivity|].
  destruct (resolve s (CheckoutItem.product_id item)) as [prod|] eqn:R.
  - destruct (checkout_loop_found s item rest total line_items prod R)
      as (o & _ & E).
    rewrite E. unfold checkout_line.
    destruct (py_float _); [|reflexivity].
    destruct (mul_int _ _); [|reflexivity].
    now rewrite IH.
  - destruct (checkout_loop_not_found s item rest total line_items R)
      as (detail & s' & E & C).
    now rewrite E.
Qed.

(** The loop completes only when every item resolved. *)
Lemma checkout_loop_ok_resolved (items : list CheckoutItem.t)
  (total : PyFloat.float) (line_items : list value) (s : store) :
  is_ok (fst (checkout_loop items total line_items s)) = true ->
  Forall (fun item => resolve s (CheckoutItem.product_id item) <> None) items.
Proof.
  revert total line_items s.
  induction items as [|item rest IH]; intros total line_items s H;
    [constructor|].
  destruct (resolve s (CheckoutItem.product_id item)) as [prod|] eqn:R.
  - constructor; [rewrite R; discriminate|].
    destruct (checkout_loop_found s item rest total line_items prod R)
      as (o & _ & E).
    rewrite E in H. unfold checkout_line in H.
    destruct (py_float _); [|discriminate].
    destruct (mul_int _ _); [|discriminate].
    apply IH in H. revert H. apply Forall_impl. intros item'.
    now rewrite resolve_logged.
  - destruct (checkout_loop_not_found s item rest total line_items R)
      as (detail & s' & E & C).
    rewrite E in H. discriminate.
Qed.

Lemma checkout_loop_unresolved (items : list CheckoutItem.t)
  (total : PyFloat.float) (line_items : list value) (s : store) :
  Exists (fun item => resolve s (CheckoutItem.product_id item) = None) items ->
  Forall (line_computes s) items ->
  exists detail s',
    checkout_loop items total line_items s = (HTTPException 400 detail, s').
Proof.
  revert total line_items s.
  induction items as [|item rest IH]; intros total line_items s Hex Hall.
  - inversion Hex.
  - destruct (resolve s (CheckoutItem.product_id item)) as [prod|] eqn:R.
    + destruct (checkout_loop_found s item rest total line_items prod R)
        as (o & _ & E).
      rewrite E. unfold checkout_line.
      inversion Hall as [|? ? Hitem Hrest]; subst.
      destruct (Hitem prod R) as (price & line_total & P & L).
      rewrite P, L. apply IH.
      * inversion Hex as [? ? H|? ? H]; subst; [congruence|].
        revert H. apply Exists_impl. intros item'.
        now rewrite resolve_logged.
      * revert Hrest. apply Forall_impl. intros item' H prod'.
        rewrite resolve_logged. apply H.
    + destruct (checkout_loop_not_found s item rest total line_items R)
        as (detail & s' & E & C).
      eauto.
Qed.

Lemma price_of_py_float (prod : document) (price : PyFloat.float) :
  price_of prod = Some price ->
  py_float (get_default (fields prod) "price" (VInt 0)) = inl price.
Proof.
  unfold price_of, get_default.
  destruct (dict_get (fields prod) "price") as [v|]; [|discriminate].
  destruct v; try discriminate; cbn [py_float].
  - intros H. now rewrite H.
  - now intros [= ->].
Qed.

Lemma checkout_loop_total (items : list CheckoutItem.t) :
  forall (prods : list document) (s : store) (total : PyFloat.float)
         (line_items : list value) (sum : PyFloat.float),
    resolve_all s items = Some prods ->
    sum_price_quantity prods items total = Some sum ->
    exists line_items' s',
      checkout_loop items total line_items s = (Ok (sum, line_items'), s')
      /\ collections s' = collections s
      /\ List.length line_items'
         = (List.length line_items + List.length items)%nat.
Proof.
  induction items as [|item rest IH];
    intros prods s total line_items sum Hres Hsum.
  - cbn in Hres. injection Hres as <-. cbn in Hsum. injection Hsum as <-.
    exists line_items, s. cbn. auto.
  - cbn [resolve_all] in Hres.
    destruct (resolve s (CheckoutItem.product_id item)) as [prod|] eqn:R;
      [|discriminate].
    destruct (resolve_all s rest) as [prods'|] eqn:Rs; [|discriminate].
    injection Hres as <-. cbn [sum_price_quantity] in Hsum.
    destruct (price_of prod) as [price|] eqn:P; [|discriminate].
    destruct (PyFloat.of_int (CheckoutItem.quantity item)) as [q|] eqn:Q;
      [|discriminate].
    destruct (checkout_loop_found s item rest total line_items prod R)
      as (o & _ & E).
    rewrite E. unfold checkout_line, mul_int.
    rewrite (price_of_py_float _ _ P), Q.
    rewrite <- (resolve_all_logged (OpFindOne "product" o)) in Rs.
    match goal with
  | |- context [checkout_loop rest ?t ?l ?s1] =>
      destruct (IH prods' s1 t l sum Rs Hsum) as (l' & s' & E' & C & Len)
  end.
    exists l', s'. split; [exact E'|]. split; [exact C|].
    rewrite Len, length_app. cbn. lia.
Qed.

(** ** Rounding to two decimals *)

Lemma div_half_even_nearest (a b : Z) :
  0 <= a -> 0 < b ->
  2 * Z.abs (a - PyFloat.div_half_even a b * b) <= b
  /\ (2 * Z.abs (a - PyFloat.div_half_even a b * b) = b ->
      Z.even (PyFloat.div_half_even a b) = true).
Proof.
  intros Ha Hb. unfold PyFloat.div_half_even.
  pose proof (Z.div_mod a b ltac:(lia)) as Hdm.
  pose proof (Z.mod_pos_bound a b Hb) as Hr.
  set (q := a / b) in *. set (r := a mod b) in *.
  assert (Hq : a - q * b = r) by lia.
  assert (Hq1 : a - (q + 1) * b = r - b) by lia.
  destruct (2 * r ?= b) eqn:C.
  - apply Z.compare_eq in C.
    destruct (Z.even q) eqn:Ev.
    + rewrite Hq. split; [lia|auto].
    + rewrite Hq1. split; [lia|]. intros _.
      rewrite Z.add_1_r, Z.even_succ, <- Z.negb_even, Ev. reflexivity.
  - rewrite Z.compare_lt_iff in C. rewrite Hq.
    split; [lia|intros H; exfalso; lia].
  - rewrite Z.compare_gt_iff in C. rewrite Hq1.
    split; [lia|intros H; exfalso; lia].
Qed.

(** [round2] rounds to two decimals. *)
Lemma round2_rounded_to_cents (x : PyFloat.float) :
  rounded_to_cents x (PyFloat.round2 x).
Proof.
  destruct x as [sign|sign| |sign m e]; try reflexivity.
  unfold rounded_to_cents, PyFloat.round2, nearest_hundredth.
  eexists. split; [|reflexivity].
  destruct e as [|p|p].
  - change (Z.max 0 0) with 0. change (Z.max (- 0) 0) with 0.
    rewrite Z.pow_0_r. split; lia.
  - change (Z.max (Z.pos p) 0) with (Z.pos p).
    change (Z.max (- Z.pos p) 0) with 0.
    rewrite Z.pow_0_r. split; lia.
  - change (Z.max (Z.neg p) 0) with 0.
    change (Z.max (- Z.neg p) 0) with (Z.pos p).
    rewrite Z.pow_0_r, Z.mul_1_r.
    apply div_half_even_nearest; [lia|].
    apply Z.pow_pos_nonneg; lia.
Qed.

Lemma store_eta (s : store) :
  {| collections := collections s; oplog := oplog s ++ [] |} = s.
Proof. destruct s. cbn. now rewrite app_nil_r. Qed.

Lemma checkout_loop_stops (good : list CheckoutItem.t) :
  forall (bad : CheckoutItem.t) (rest : list CheckoutItem.t)
         (total : PyFloat.float) (line_items : list value) (s : store),
    Forall (fun item =>
              resolve s (CheckoutItem.product_id item) <> None
              /\ line_computes s item) good ->
    resolve s (CheckoutItem.product_id bad) = None ->
    checkout_loop (good ++ bad :: rest) total line_items s
    = (HTTPException 400 (unresolved_detail bad),
       {| collections := collections s;
          oplog := oplog s ++ lookups (good ++ [bad]) |}).
Proof.
  induction good as [|item good IH];
    intros bad rest total line_items s Hgood Hbad.
  - cbn [app]. unfold resolve in Hbad.
    cbn [checkout_loop]. unfold bind at 1. unfold oid.
    unfold lookups, unresolved_detail. cbn [flat_map].
    destruct (ObjectId (CheckoutItem.product_id bad)) as [o|].
    + cbn [ret]. unfold bind at 1. unfold find_one. rewrite Hbad.
      reflexivity.
    + unfold raise. cbn [app]. now rewrite store_eta.
  - inversion Hgood as [|? ? [Hres Hcomp] Hgood']; subst.
    destruct (resolve s (CheckoutItem.product_id item)) as [prod|] eqn:R;
      [|now elim Hres].
    cbn [app].
    destruct (checkout_loop_found s item (good ++ bad :: rest) total
                line_items prod R) as (o & Eo & E).
    rewrite E. unfold checkout_line.
    destruct (Hcomp prod R) as (price & line_total & P & L).
    rewrite P, L. rewrite IH.
    + unfold lookups. cbn [flat_map]. rewrite Eo.
      cbn [logged collections oplog app]. now rewrite <- app_assoc.
    + revert Hgood'. apply Forall_impl. intros item' [H1 H2].
      split; [now rewrite resolve_logged|].
      intros prod'. rewrite resolve_logged. apply H2.
    + now rewrite resolve_logged.
Qed.

(** C1, amended: when every item of a checkout request resolves to an
    existing product and the sum of price times quantity is defined, the
    total that [fast_checkout] returns, and the total of the order it
    persists, is that sum rounded to two decimals.  The sum is the Python
    one: doubles, added in the order of the request from [0.0]; it is
    defined when every price is a number and every quantity within the
    range of a double. *)
Theorem fast_checkout_total (s : store) (req : CheckoutRequest.t)
  (prods : list document) (sum : PyFloat.float) :
  resolve_all s (CheckoutRequest.items req) = Some prods ->
  sum_price_quantity prods (CheckoutRequest.items req) PyFloat.zero
  = Some sum ->
  exists total o line_items s',
    rounded_to_cents sum total
    /\ fast_checkout req (Some s)
       = (Ok [("order_id", VStr (str_oid o)); ("total", VFloat total)],
          Some s')
    /\ coll s' "order"
       = coll s "order"
         ++ [{| _id := o;
                fields := [("email", VStr (CheckoutRequest.email req));
                           ("items", VList line_items);
                           ("total", VFloat total);
                           ("status", VStr "created")] |}]
    /\ List.length line_items = List.length (CheckoutRequest.items req).
Proof.
  intros Hres Hsum.
  destruct (checkout_loop_total _ _ s PyFloat.zero [] sum Hres Hsum)
    as (line_items & s1 & E & C & Len).
  exists (PyFloat.round2 sum), (new_oid s1), line_items.
  unfold fast_checkout, run. unfold bind at 1. rewrite E.
  unfold bind, create_document, ret, order_doc.
  eexists. split; [apply round2_rounded_to_cents|].
  split; [reflexivity|]. split; [|exact Len].
  unfold coll. cbn [collections]. now rewrite lookup_insert_same, C.
Qed.

(** An order is written only after every item has resolved. *)
Lemma fast_checkout_writes_after_resolving (s s' : store)
  (req : CheckoutRequest.t) :
  snd (fast_checkout req (Some s)) = Some s' ->
  collections s' <> collections s ->
  Forall (fun item => resolve s (CheckoutItem.product_id item) <> None)
         (CheckoutRequest.items req).
Proof.
  unfold fast_checkout, run. unfold bind at 1.
  pose proof (checkout_loop_collections (CheckoutRequest.items req)
                PyFloat.zero [] s) as C.
  pose proof (checkout_loop_ok_resolved (CheckoutRequest.items req)
                PyFloat.zero [] s) as R.
  destruct (checkout_loop (CheckoutRequest.items req) PyFloat.zero [] s)
    as [r s1].
  cbn [fst snd] in C, R.
  destruct r as [[total line_items]| | |]; cbn [snd];
    try (intros [= <-] N; now elim N).
  intros _ _. now apply R.
Qed.

(** C2, amended: when some item of a checkout request does not resolve to
    an existing product, [fast_checkout] fails and every collection of the
    store, the orders among them, is as it was.  The failure is the 400 of
    the first such item when the items before it resolve and have a line
    total, as it is when every item that resolves has one; an item before
    it for which Python raises ends the request first. *)
Theorem fast_checkout_unresolved (s : store) (req : CheckoutRequest.t) :
  Exists (fun item => resolve s (CheckoutItem.product_id item) = None)
         (CheckoutRequest.items req) ->
  (exists s',
      snd (fast_checkout req (Some s)) = Some s'
      /\ collections s' = collections s)
  /\ is_ok (fst (fast_checkout req (Some s))) = false
  /\ (Forall (line_computes s) (CheckoutRequest.items req) ->
      status (fst (fast_checkout req (Some s))) = 400)
  /\ (forall good bad rest,
         CheckoutRequest.items req = good ++ bad :: rest ->
         Forall (fun item =>
                   resolve s (CheckoutItem.product_id item) <> None
                   /\ line_computes s item) good ->
         resolve s (CheckoutItem.product_id bad) = None ->
         status (fst (fast_checkout req (Some s))) = 400).
Proof.
  intros Hex.
  assert (Hloop : is_ok (fst (checkout_loop (CheckoutRequest.items req)
                                 PyFloat.zero [] s)) = false).
  { destruct (is_ok _) eqn:E; [|reflexivity].
    apply checkout_loop_ok_resolved in E.
    apply Exists_exists in Hex. destruct Hex as (item & Hin & Hnone).
    rewrite Forall_forall in E. now elim (E item Hin). }
  pose proof (checkout_loop_collections (CheckoutRequest.items req)
                PyFloat.zero [] s) as C.
  split; [|split; [|split]].
  - unfold fast_checkout, run. unfold bind at 1.
    destruct (checkout_loop (CheckoutRequest.items req) PyFloat.zero [] s)
      as [r s1].
    cbn [fst snd] in C, Hloop.
    destruct r; try discriminate; cbn [snd]; eauto.
  - unfold fast_checkout, run. unfold bind at 1.
    destruct (checkout_loop (CheckoutRequest.items req) PyFloat.zero [] s)
      as [r s1].
    cbn [fst] in Hloop. destruct r; try discriminate; reflexivity.
  - intros Hall.
    destruct (checkout_loop_unresolved _ PyFloat.zero [] s Hex Hall)
      as (detail & s' & E).
    unfold fast_checkout, run. unfold bind at 1. now rewrite E.
  - intros good bad rest Hitems Hgood Hbad.
    unfold fast_checkout, run. unfold bind at 1. rewrite Hitems.
    now rewrite (checkout_loop_stops good bad rest _ _ s Hgood Hbad).
Qed.

(** ** Facts on doubles *)









(** ** What the input models let through *)

Lemma ReviewIn_validate_any (body : ReviewIn.t) :
  ReviewIn.validate body = Some body.
Proof. reflexivity. Qed.

Lemma CheckoutItem_validate_any (b : CheckoutItem.body) :
  CheckoutItem.validate b
  = Some {| CheckoutItem.product_id := CheckoutItem.body_product_id b;
            CheckoutItem.size := CheckoutItem.body_size b;
            CheckoutItem.quantity :=
              Pydantic.with_default 1 (CheckoutItem.body_quantity b) |}.
Proof.
  unfold CheckoutItem.validate. now destruct (CheckoutItem.body_size b).
Qed.

(** Whatever its rating, a review of an existing product is stored. *)
Lemma post_reviews_stores_any_rating (s : store) (body : ReviewIn.t)
  (prod : document) :
  resolve s (ReviewIn.product_id body) = Some prod ->
  exists o s',
    post_reviews body (Some s) = (Ok [("_id", VStr (str_oid o))], Some s')
    /\ coll s' "review"
       = coll s "review"
         ++ [{| _id := o; fields := ReviewIn.model_dump body |}].
Proof.
  unfold resolve. intros R.
  destruct (ObjectId (ReviewIn.product_id body)) as [o|] eqn:E;
    [|discriminate].
  unfold post_reviews. rewrite ReviewIn_validate_any.
  unfold create_review, run. unfold bind at 1. unfold oid. rewrite E.
  cbn [ret]. unfold bind at 1. unfold find_one. rewrite R.
  unfold bind, create_document, ret.
  eexists. eexists. split; [reflexivity|].
  unfold coll. cbn [collections logged]. now rewrite lookup_insert_same.
Qed.

(** ** Identifiers handed out and taken back *)

Lemma hex_val_hex_digit (n : N) : (n < 16)%N -> hex_val (hex_digit n) = Some n.
Proof.
  intros H. destruct n as [|p]; [reflexivity|].
  do 4 (destruct p as [p|p|]; try reflexivity); exfalso; lia.
Qed.

Lemma length_hex (bs : list Byte.byte) :
  String.length (hex bs) = (2 * List.length bs)%nat.
Proof.
  induction bs as [|b bs IH]; [reflexivity|].
  cbn [hex String.length List.length]. rewrite IH. lia.
Qed.

Lemma hex_digit_not_space (n : N) :
  (n < 16)%N -> is_space (hex_digit n) = false.
Proof.
  intros H. destruct n as [|p]; [reflexivity|].
  do 4 (destruct p as [p|p|]; try reflexivity); exfalso; lia.
Qed.

(** Decoding the hexadecimal form of some bytes gives the bytes back. *)
Lemma fromhex_hex (bs : list Byte.byte) : fromhex (hex bs) = Some bs.
Proof.
  induction bs as [|b bs IH]; [reflexivity|].
  cbn [hex fromhex].
  pose proof (Byte.to_N_bounded b) as Hb.
  assert (Hhi : (Byte.to_N b / 16 < 16)%N)
    by (apply N.Div0.div_lt_upper_bound; lia).
  assert (Hlo : (Byte.to_N b mod 16 < 16)%N)
    by (apply N.mod_lt; discriminate).
  rewrite (hex_digit_not_space _ Hhi).
  rewrite !hex_val_hex_digit, IH by assumption.
  replace (16 * (Byte.to_N b / 16) + Byte.to_N b mod 16)%N
    with (Byte.to_N b) by (apply N.div_mod; discriminate).
  now rewrite Byte.of_to_N.
Qed.

Lemma ObjectId_str_oid (o : objectid) :
  List.length o = 12%nat -> ObjectId (str_oid o) = Some o.
Proof.
  intros H. unfold ObjectId, str_oid. rewrite length_hex, H.
  cbn [Nat.mul Nat.add Nat.eqb]. apply fromhex_hex.
Qed.

Lemma oid_eqb_eq (a b : objectid) : oid_eqb a b = true <-> a = b.
Proof.
  unfold oid_eqb. destruct (list_eq_dec Byte.byte_eq_dec a b); split;
    auto; discriminate.
Qed.

Lemma find_by_id (d : document) (l : list document) :
  In d l ->
  NoDup (map _id l) ->
  find (fun x => oid_eqb (_id x) (_id d)) l = Some d.
Proof.
  induction l as [|a l IH]; intros Hin Hnd; [inversion Hin|].
  cbn [map] in Hnd. inversion Hnd as [|? ? Hnot Hnd']; subst.
  cbn [find]. destruct Hin as [->|Hin].
  - now rewrite (proj2 (oid_eqb_eq _ _) eq_refl).
  - destruct (oid_eqb (_id a) (_id d)) eqn:E; [|now apply IH].
    apply oid_eqb_eq in E. exfalso. apply Hnot. rewrite E.
    now apply in_map.
Qed.

(** X1: a stored product is fetched back under the string form of its
    identifier.  When the identifiers of the product collection are
    distinct and the one of [d] has twelve bytes, [GET /products/{id}]
    with [id = str(d["_id"])] answers with the fields of [d] and that
    same string under [_id], after one lookup. *)
Theorem get_product_round_trip (s : store) (d : document) :
  In d (coll s "product") ->
  NoDup (map _id (coll s "product")) ->
  List.length (_id d) = 12%nat ->
  get_product (str_oid (_id d)) (Some s)
  = (Ok (("_id", VStr (str_oid (_id d))) :: fields d),
     Some (logged (OpFindOne "product" (_id d)) s)).
Proof.
  intros Hin Hnd Hlen.
  unfold get_product, run, bind, oid, find_one, ret.
  rewrite (ObjectId_str_oid _ Hlen).
  now rewrite (find_by_id d _ Hin Hnd).
Qed.

(** ** Reviews *)

Lemma create_review_outcome (s : store) (payload : ReviewIn.t) :
  match resolve s (ReviewIn.product_id payload) with
  | Some prod =>
      exists o s',
        create_review payload (Some s)
        = (Ok [("_id", VStr (str_oid o))], Some s')
        /\ coll s' "review"
           = coll s "review"
             ++ [{| _id := o; fields := ReviewIn.model_dump payload |}]
        /\ forall other, "review" <> other -> coll s' other = coll s other
  | None =>
      exists detail s',
        create_review payload (Some s) = (HTTPException 400 detail, Some s')
        /\ collections s' = collections s
  end.
Proof.
  unfold resolve, create_review, run, oid.
  destruct (ObjectId (ReviewIn.product_id payload)) as [o|] eqn:E.
  - unfold bind, find_one, ret, raise, create_document. cbn beta iota.
    destruct (find _ (coll s "product")) as [prod|].
    + eexists. eexists. split; [reflexivity|]. split.
      * unfold coll. cbn [collections logged].
        now rewrite lookup_insert_same.
      * intros other Hne. unfold coll. cbn [collections logged].
        now apply lookup_insert_other.
    + eexists. eexists. split; reflexivity.
  - unfold bind, raise. eexists. eexists. split; reflexivity.
Qed.

(** X2: a review of a product that does not exist, or whose id is not
    well formed, is answered with 400 and nothing is stored. *)
Theorem post_reviews_unknown_product (s : store) (body : ReviewIn.t) :
  resolve s (ReviewIn.product_id body) = None ->
  status (fst (post_reviews body (Some s))) = 400
  /\ exists s',
      snd (post_reviews body (Some s)) = Some s'
      /\ collections s' = collections s.
Proof.
  intros R. unfold post_reviews. rewrite ReviewIn_validate_any.
  pose proof (create_review_outcome s body) as H. rewrite R in H.
  destruct H as (detail & s' & E & C). rewrite E. cbn. eauto.
Qed.

Lemma get_reviews_filter (s : store) (product_id : string) :
  get_reviews product_id (Some s)
  = (Ok (map serialize
           (filter (fun d => has d "product_id" product_id)
                   (coll s "review"))),
     Some (logged (OpFind "review" [("product_id", VStr product_id)]) s)).
Proof.
  unfold get_reviews, run, bind, get_documents, ret.
  do 3 f_equal. apply filter_ext. intros d.
  unfold matches, has. cbn [forallb fst snd]. now rewrite andb_true_r.
Qed.

(** X3: a review that [POST /reviews] accepts is read back by
    [GET /reviews/{product_id}].  After the post, the listing under the
    id string the review was sent with is the listing of before followed
    by the new review, which carries the returned [_id]; the listing
    under any other string is as before. *)
Theorem post_reviews_then_get_reviews (s : store) (body : ReviewIn.t)
  (prod : document) :
  resolve s (ReviewIn.product_id body) = Some prod ->
  exists o s',
    post_reviews body (Some s) = (Ok [("_id", VStr (str_oid o))], Some s')
    /\ forall product_id before,
        fst (get_reviews product_id (Some s)) = Ok before ->
        fst (get_reviews product_id (Some s'))
        = Ok (before
              ++ if String.eqb (ReviewIn.product_id body) product_id
                 then [("_id", VStr (str_oid o)) :: ReviewIn.model_dump body]
                 else []).
Proof.
  intros R. unfold post_reviews. rewrite ReviewIn_validate_any.
  pose proof (create_review_outcome s body) as H. rewrite R in H.
  destruct H as (o & s' & E & Hrev & _).
  exists o, s'. split; [exact E|].
  intros product_id before. rewrite !get_reviews_filter. cbn [fst].
  intros [= <-]. rewrite Hrev, filter_app, map_app. do 2 f_equal.
  cbn [filter]. unfold has at 1. cbn.
  now destruct (String.eqb (ReviewIn.product_id body) product_id).
Qed.

(** ** Orders *)

Lemma fast_checkout_outcome (s : store) (req : CheckoutRequest.t) :
  exists s',
    snd (fast_checkout req (Some s)) = Some s'
    /\ ((is_ok (fst (fast_checkout req (Some s))) = true
         /\ (exists order, coll s' "order" = coll s "order" ++ [order])
         /\ forall other, "order" <> other -> coll s' other = coll s other)
        \/ (is_ok (fst (fast_checkout req (Some s))) = false
            /\ collections s' = collections s)).
Proof.
  unfold fast_checkout, run, bind, create_document, ret.
  pose proof (checkout_loop_collections (CheckoutRequest.items req)
                PyFloat.zero [] s) as C.
  destruct (checkout_loop (CheckoutRequest.items req) PyFloat.zero [] s)
    as [r s1].
  cbn [snd] in C.
  destruct r as [[total line_items]| | |]; cbn [fst snd is_ok];
    try (exists s1; split; [reflexivity|]; right; now split).
  eexists. split; [reflexivity|]. left. split; [reflexivity|]. split.
  - eexists. unfold coll. cbn [collections].
    rewrite lookup_insert_same, C. reflexivity.
  - intros other Hne. unfold coll. cbn [collections].
    rewrite lookup_insert_other, C; auto.
Qed.

(** X4: a checkout is all or nothing.  Whatever the request and whatever
    it ends in, either it succeeds and exactly one order has been added
    to the order collection, every other collection being as it was, or
    it fails and no collection has changed. *)
Theorem fast_checkout_all_or_nothing (s : store) (req : CheckoutRequest.t) :
  exists s',
    snd (fast_checkout req (Some s)) = Some s'
    /\ ((is_ok (fst (fast_checkout req (Some s))) = true
         /\ (exists order, coll s' "order" = coll s "order" ++ [order])
         /\ forall other, "order" <> other -> coll s' other = coll s other)
        \/ (is_ok (fst (fast_checkout req (Some s))) = false
            /\ collections s' = collections s)).
Proof. apply fast_checkout_outcome. Qed.

Lemma checkout_loop_lines (items : list CheckoutItem.t) :
  forall (total : PyFloat.float) (line_items : list value) (s : store)
         (total' : PyFloat.float) (line_items' : list value) (s' : store),
    checkout_loop items total line_items s = (Ok (total', line_items'), s') ->
    exists added,
      line_items' = line_items ++ added
      /\ Forall2 line_for items added
      /\ total' = fold_left (fun acc line => PyFloat.add acc (line_total_of line))
                            added total.
Proof.
  induction items as [|item rest IH];
    intros total line_items s total' line_items' s' H.
  - cbn in H. injection H as <- <- <-. exists [].
    rewrite app_nil_r. repeat split. constructor.
  - destruct (resolve s (CheckoutItem.product_id item)) as [prod|] eqn:R.
    + destruct (checkout_loop_found s item rest total line_items prod R)
        as (o & _ & E).
      rewrite E in H. unfold checkout_line, mul_int in H.
      destruct (py_float _) as [price|]; [|discriminate].
      destruct (PyFloat.of_int (CheckoutItem.quantity item)) as [q|] eqn:Q;
        [|discriminate].
      apply IH in H. destruct H as (added & -> & F & ->).
      eexists (_ :: added). split; [now rewrite <- app_assoc|]. split.
      * constructor; [|exact F]. unfold line_for. eauto.
      * reflexivity.
    + destruct (checkout_loop_not_found s item rest total line_items R)
        as (detail & s1 & E & _).
      rewrite E in H. discriminate.
Qed.

(** X5: every order that [fast_checkout] stores is consistent with its
    lines.  When the checkout succeeds, the stored order has the email of
    the request, status [created] and one line per requested item, in
    order, with the item's size and quantity and
    [line_total = unit_price * quantity]; its total, which is also the
    total of the response, is the sum of the line totals, added in order
    from [0.0], rounded to two decimals. *)
Theorem fast_checkout_order_invariant (s : store) (req : CheckoutRequest.t)
  (resp : dict) (db' : option store) :
  fast_checkout req (Some s) = (Ok resp, db') ->
  exists total o line_items s',
    rounded_to_cents
      (fold_left (fun acc line => PyFloat.add acc (line_total_of line))
                 line_items PyFloat.zero)
      total
    /\ db' = Some s'
    /\ resp = [("order_id", VStr (str_oid o)); ("total", VFloat total)]
    /\ coll s' "order"
       = coll s "order"
         ++ [{| _id := o;
                fields := [("email", VStr (CheckoutRequest.email req));
                           ("items", VList line_items);
                           ("total", VFloat total);
                           ("status", VStr "created")] |}]
    /\ Forall2 line_for (CheckoutRequest.items req) line_items.
Proof.
  unfold fast_checkout, run. unfold bind at 1.
  pose proof (checkout_loop_collections (CheckoutRequest.items req)
                PyFloat.zero [] s) as C.
  pose proof (checkout_loop_lines (CheckoutRequest.items req)
                PyFloat.zero [] s) as L.
  destruct (checkout_loop (CheckoutRequest.items req) PyFloat.zero [] s)
    as [r s1].
  cbn [snd] in C.
  destruct r as [[total line_items]| | |]; try discriminate.
  destruct (L total line_items s1 eq_refl) as (added & Hl & F & Ht).
  cbn [app] in Hl. subst added total.
  unfold bind, create_document, ret, order_doc.
  intros [= <- <-].
  eexists. exists (new_oid s1), line_items. eexists.
  split; [apply round2_rounded_to_cents|].
  split; [reflexivity|]. split; [reflexivity|]. split; [|exact F].
  unfold coll. cbn [collections]. now rewrite lookup_insert_same, C.
Qed.

(** X6: an empty cart is accepted.  A checkout without items looks up no
    product and stores an order with no lines and the total [0.0]. *)
Theorem fast_checkout_empty_cart (s : store) (email : string) :
  fast_checkout {| CheckoutRequest.email := email;
                   CheckoutRequest.items := [] |} (Some s)
  = (Ok [("order_id", VStr (str_oid (new_oid s)));
         ("total", VFloat PyFloat.zero)],
     Some {| collections :=
               insert_coll (collections s) "order"
                 {| _id := new_oid s;
                    fields := [("email", VStr email);
                               ("items", VList []);
                               ("total", VFloat PyFloat.zero);
                               ("status", VStr "created")] |};
             oplog := oplog s ++ [OpInsert "order"] |}).
Proof. reflexivity. Qed.

(** X7: a checkout fails closed at the first item that does not resolve.
    When the items before it resolve and have a line total, the answer is
    the 400 of that item, [Invalid id] for an id that [ObjectId] rejects
    and [Invalid product: <id>] for one it accepts that matches no
    product; the store has been asked for the items up to it and for none
    of the items after it, and no collection has changed. *)
Theorem fast_checkout_stops_at_first_unresolved (s : store) (email : string)
  (good : list CheckoutItem.t) (bad : CheckoutItem.t)
  (rest : list CheckoutItem.t) :
  Forall (fun item =>
            resolve s (CheckoutItem.product_id item) <> None
            /\ line_computes s item) good ->
  resolve s (CheckoutItem.product_id bad) = None ->
  fast_checkout {| CheckoutRequest.email := email;
                   CheckoutRequest.items := good ++ bad :: rest |} (Some s)
  = (HTTPException 400 (unresolved_detail bad),
     Some {| collections := collections s;
             oplog := oplog s ++ lookups (good ++ [bad]) |}).
Proof.
  intros Hgood Hbad. unfold fast_checkout, run. unfold bind at 1.
  cbn [CheckoutRequest.items].
  now rewrite (checkout_loop_stops good bad rest _ _ s Hgood Hbad).
Qed.

(** ** What requests do to the store *)

Lemma snd_respond {A : Type} (to_json : A -> value)
  (out : result A * option store) :
  snd (respond to_json out) = snd out.
Proof. reflexivity. Qed.

Lemma serve_has_effect (req : request) (s : store) :
  exists s', snd (serve req (Some s)) = Some s' /\ effect req s s'.
Proof.
  destruct req as [|tag category|product_id|product_id|body|body];
    cbn [serve]; rewrite snd_respond.
  - destruct (coll s "product") as [|d l] eqn:H.
    + destruct (seed_products_empty s H) as (s' & E & P & O).
      rewrite E. exists s'. split; [reflexivity|].
      now apply effect_seed.
    + rewrite seed_products_nonempty by (rewrite H; discriminate).
      eexists. split; [reflexivity|]. now apply effect_none.
  - eexists. split; [reflexivity|]. now apply effect_none.
  - unfold get_product, run, bind, oid, find_one, ret, raise.
    destruct (ObjectId product_id) as [o|].
    + destruct (find _ (coll s "product"));
        (eexists; split; [reflexivity|]; now apply effect_none).
    + eexists. split; [reflexivity|]. now apply effect_none.
  - eexists. split; [reflexivity|]. now apply effect_none.
  - unfold post_reviews. rewrite ReviewIn_validate_any.
    pose proof (create_review_outcome s body) as H.
    destruct (resolve s (ReviewIn.product_id body)) as [prod|] eqn:R.
    + destruct H as (o & s' & E & Hrev & O). rewrite E.
      exists s'. split; [reflexivity|].
      now apply (effect_review body s s' o prod).
    + destruct H as (detail & s' & E & C). rewrite E.
      exists s'. split; [reflexivity|]. now apply effect_none.
  - unfold post_checkout, CheckoutRequest.validate.
    destruct (validate_items_total (CheckoutRequest.body_items body))
      as [items E].
    rewrite E.
    match goal with
    | |- context [fast_checkout ?r _] =>
        destruct (fast_checkout_outcome s r)
          as (s' & Hs & [(_ & [order Ho] & O)|(_ & C)])
    end.
    + exists s'. split; [exact Hs|]. now apply (effect_order body s s' order).
    + exists s'. split; [exact Hs|]. now apply effect_none.
Qed.

(** X8: what a request can do to the store.  Every request leaves a
    store behind, and its collections are as before unless the request is
    a [POST /seed] on an empty product collection, which then holds the
    samples, a [POST /reviews] for a product that exists, which adds that
    one review, or a [POST /checkout], which adds one order; the other
    collections are untouched in each case, and the three [GET] routes
    change nothing. *)
Theorem serve_effect (req : request) (s : store) :
  (exists s', snd (serve req (Some s)) = Some s' /\ effect req s s')
  /\ forall s',
      snd (serve req (Some s)) = Some s' ->
      match req with
      | GetProducts _ _ | GetProduct _ | GetReviews _ =>
          collections s' = collections s
      | _ => True
      end.
Proof.
  split; [apply serve_has_effect|].
  intros s' H. destruct (serve_has_effect req s) as (s1 & E & Heff).
  rewrite E in H. injection H as <-.
  destruct req; auto; now inversion Heff.
Qed.

Lemma coll_same (s s' : store) (name : string) :
  collections s' = collections s -> coll s' name = coll s name.
Proof. unfold coll. now intros ->. Qed.

Lemma effect_appends (req : request) (s s' : store) :
  effect req s s' ->
  forall name, exists added, coll s' name = coll s name ++ added.
Proof.
  intros Heff name. destruct Heff as
    [req s s' C|s s' Hempty Hsample O|body s s' o prod R Hrev O
     |body s s' order Ho O].
  - exists []. rewrite app_nil_r. now apply coll_same.
  - destruct (string_dec "product" name) as [<-|Hne].
    + exists (coll s' "product"). now rewrite Hempty.
    + exists []. rewrite app_nil_r. now apply O.
  - destruct (string_dec "review" name) as [<-|Hne].
    + eexists. exact Hrev.
    + exists []. rewrite app_nil_r. now apply O.
  - destruct (string_dec "order" name) as [<-|Hne].
    + eexists. exact Ho.
    + exists []. rewrite app_nil_r. now apply O.
Qed.

(** X9: the store only grows.  No sequence of requests deletes or changes
    a stored document: after it, each collection is what it was, followed
    by the documents added since. *)
Theorem serve_all_append_only (reqs : list request) (s : store) :
  exists s',
    serve_all reqs (Some s) = Some s'
    /\ forall name, exists added, coll s' name = coll s name ++ added.
Proof.
  revert s. induction reqs as [|req rest IH]; intros s.
  - exists s. split; [reflexivity|]. intros name. exists [].
    now rewrite app_nil_r.
  - cbn [serve_all]. destruct (serve_has_effect req s) as (s1 & E & Heff).
    rewrite E. destruct (IH s1) as (s' & R & Hgrow).
    exists s'. split; [exact R|]. intros name.
    destruct (effect_appends _ _ _ Heff name) as [a1 H1].
    destruct (Hgrow name) as [a2 H2].
    exists (a1 ++ a2). now rewrite H2, H1, app_assoc.
Qed.

Lemma resolve_same (s s' : store) (product_id : string) :
  coll s' "product" = coll s "product" ->
  resolve s' product_id = resolve s product_id.
Proof. unfold resolve. now intros ->. Qed.

Lemma resolve_empty (s : store) (product_id : string) :
  coll s "product" = [] -> resolve s product_id = None.
Proof.
  unfold resolve. intros ->. now destruct (ObjectId product_id).
Qed.

Lemma effect_keeps_references (req : request) (s s' : store) :
  effect req s s' ->
  reviews_reference_products s ->
  reviews_reference_products s'.
Proof.
  unfold reviews_reference_products.
  intros Heff Hinv. destruct Heff as
    [req s s' C|s s' Hempty Hsample O|body s s' o prod R Hrev O
     |body s s' order Ho O].
  - rewrite (coll_same _ _ "review" C). revert Hinv. apply Forall_impl.
    intros r (p & Hp & Hr). exists p. split; [exact Hp|].
    now rewrite (resolve_same s s') by now apply coll_same.
  - rewrite O by discriminate. revert Hinv. apply Forall_impl.
    intros r (p & _ & Hr). now rewrite (resolve_empty s p Hempty) in Hr.
  - assert (P : coll s' "product" = coll s "product")
      by (apply O; discriminate).
    rewrite Hrev. apply Forall_app. split.
    + revert Hinv. apply Forall_impl. intros r (p & Hp & Hr).
      exists p. split; [exact Hp|]. now rewrite (resolve_same s s').
    + constructor; [|constructor].
      exists (ReviewIn.product_id body). split; [reflexivity|].
      rewrite (resolve_same s s') by exact P. now rewrite R.
  - assert (P : coll s' "product" = coll s "product")
      by (apply O; discriminate).
    rewrite O by discriminate. revert Hinv. apply Forall_impl.
    intros r (p & Hp & Hr). exists p. split; [exact Hp|].
    now rewrite (resolve_same s s').
Qed.

(** X10: reviews keep pointing at products.  When every stored review
    names, under [product_id], an id that resolves to a product of the
    store, the same holds after any sequence of requests. *)
Theorem serve_all_keeps_references (reqs : list request) (s : store) :
  reviews_reference_products s ->
  exists s',
    serve_all reqs (Some s) = Some s' /\ reviews_reference_products s'.
Proof.
  revert s. induction reqs as [|req rest IH]; intros s Hinv.
  - now exists s.
  - cbn [serve_all]. destruct (serve_has_effect req s) as (s1 & E & Heff).
    rewrite E. apply IH. now apply (effect_keeps_references req s).
Qed.

Lemma effect_keeps_catalogue (req : request) (s s' : store) :
  effect req s s' -> catalogue_is_seed s -> catalogue_is_seed s'.
Proof.
  unfold catalogue_is_seed.
  intros Heff Hinv. destruct Heff as
    [req s s' C|s s' Hempty Hsample O|body s s' o prod R Hrev O
     |body s s' order Ho O].
  - now rewrite (coll_same _ _ "product" C).
  - now right.
  - now rewrite O by discriminate.
  - now rewrite O by discriminate.
Qed.

(** X11: products come from the seed only.  Starting from a store whose
    product collection is empty or holds the samples, after any sequence
    of requests it is still empty or holds exactly the three samples. *)
Theorem serve_all_keeps_catalogue (reqs : list request) (s : store) :
  catalogue_is_seed s ->
  exists s', serve_all reqs (Some s) = Some s' /\ catalogue_is_seed s'.
Proof.
  revert s. induction reqs as [|req rest IH]; intros s Hinv.
  - now exists s.
  - cbn [serve_all]. destruct (serve_has_effect req s) as (s1 & E & Heff).
    rewrite E. apply IH. now apply (effect_keeps_catalogue req s).
Qed.

(** X12: what was seeded is what is listed.  After [POST /seed] on an
    empty product collection, [GET /products] without a filter returns
    three products: each is a sample behind an [_id] entry that holds a
    string. *)
Theorem seed_then_list_products (s : store) :
  coll s "product" = [] ->
  exists s1 prods s2,
    snd (seed_products (Some s)) = Some s1
    /\ list_products None None (Some s1) = (Ok prods, Some s2)
    /\ map (@tl (string * value)) prods = sample
    /\ Forall (fun p => exists id, hd_error p = Some ("_id", VStr id)) prods.
Proof.
  intros H. destruct (seed_products_empty s H) as (s1 & E & P & _).
  exists s1. eexists. eexists. rewrite E.
  split; [reflexivity|]. split.
  - unfold list_products, run, bind, get_documents, ret.
    cbn [set_if]. rewrite filter_all by reflexivity. reflexivity.
  - split.
    + rewrite map_map. exact P.
    + apply Forall_forall. intros p Hin. apply in_map_iff in Hin.
      destruct Hin as (d & <- & _). eexists. reflexivity.
Qed.

Lemma filter_none {A : Type} (f : A -> bool) (l : list A) :
  (forall x, In x l -> f x = false) -> filter f l = [].
Proof.
  induction l as [|x l IH]; intros H; [reflexivity|].
  cbn [filter]. rewrite (H x) by now left.
  apply IH. intros y Hy. apply H. now right.
Qed.

(** X13: reviews of an unknown product.  [GET /reviews/{product_id}] does
    not check the id: when every stored review names a product of the
    store, an id that is malformed or matches no product is answered with
    an empty list and 200, not with 400 or 404. *)
Theorem get_reviews_unknown_product (s : store) (product_id : string) :
  reviews_reference_products s ->
  resolve s product_id = None ->
  fst (get_reviews product_id (Some s)) = Ok []
  /\ status (fst (get_reviews product_id (Some s))) = 200.
Proof.
  intros Hinv R. rewrite get_reviews_filter. cbn [fst status].
  split; [|reflexivity]. rewrite filter_none; [reflexivity|].
  intros r Hin. unfold reviews_reference_products in Hinv.
  rewrite Forall_forall in Hinv.
  destruct (Hinv r Hin) as (p & Hp & Hr).
  destruct (has r "product_id" product_id) eqn:E; [|reflexivity].
  apply has_spec in E. unfold doc_get in E. cbn [String.eqb Ascii.eqb] in E.
  cbn in E. rewrite Hp in E. injection E as ->. contradiction.
Qed.

End API.

(** ** Concrete runs *)

(** C1 fails as stated: the one item of the request resolves, and the
    request ends in an [OverflowError], a 500, because the quantity is
    beyond the range of a double. *)
Lemma fast_checkout_huge_quantity :
  ~ resolving_checkout_succeeds Run.float_of_str Run.new_oid
      Run.shop Run.huge_order.
Proof.
  unfold resolving_checkout_succeeds. intros H.
  assert (R : resolve_all Run.shop (CheckoutRequest.items Run.huge_order)
              <> None) by (vm_compute; discriminate).
  specialize (H R). vm_compute in H. discriminate H.
Qed.

(** The request [{price 10, qty 2}, {price 5, qty 3}] is answered with the
    total 35.00, and the order is stored with it.  Three items at 0.1 sum
    to 0.30000000000000004 and are answered with the total 0.3. *)
Lemma fast_checkout_total_35 :
  (resolve_all Run.shop (CheckoutRequest.items Run.two_lines)
   = Some [Run.shirt; Run.socks]
   /\ sum_price_quantity [Run.shirt; Run.socks]
        (CheckoutRequest.items Run.two_lines) PyFloat.zero
      = Some (PyFloat.of_Z 35)
   /\ fst (fast_checkout Run.float_of_str Run.new_oid Run.two_lines
             (Some Run.shop))
      = Ok [("order_id", VStr "000000000000000000000082");
            ("total", VFloat (PyFloat.dec 3500 2))]
   /\ exists total o line_items s',
       rounded_to_cents (PyFloat.of_Z 35) total
       /\ fast_checkout Run.float_of_str Run.new_oid Run.two_lines
            (Some Run.shop)
          = (Ok [("order_id", VStr (str_oid o)); ("total", VFloat total)],
             Some s')
       /\ coll s' "order"
          = coll Run.shop "order"
            ++ [{| _id := o;
                   fields :=
                     [("email", VStr (CheckoutRequest.email Run.two_lines));
                      ("items", VList line_items);
                      ("total", VFloat total);
                      ("status", VStr "created")] |}]
       /\ List.length line_items
          = List.length (CheckoutRequest.items Run.two_lines))
  /\ (resolve_all Run.kiosk (CheckoutRequest.items Run.three_gums)
      = Some [Run.gum]
      /\ sum_price_quantity [Run.gum]
           (CheckoutRequest.items Run.three_gums) PyFloat.zero
         = Some (PyFloat.mul (PyFloat.dec 1 1) (PyFloat.of_Z 3))
      /\ PyFloat.eqb (PyFloat.mul (PyFloat.dec 1 1) (PyFloat.of_Z 3))
                     (PyFloat.dec 3 1) = false
      /\ fst (fast_checkout Run.float_of_str Run.new_oid Run.three_gums
                (Some Run.kiosk))
         = Ok [("order_id", VStr "000000000000000000000081");
               ("total", VFloat (PyFloat.dec 3 1))]
      /\ exists total o line_items s',
          rounded_to_cents (PyFloat.mul (PyFloat.dec 1 1) (PyFloat.of_Z 3))
                           total
          /\ fast_checkout Run.float_of_str Run.new_oid Run.three_gums
               (Some Run.kiosk)
             = (Ok [("order_id", VStr (str_oid o)); ("total", VFloat total)],
                Some s')
          /\ coll s' "order"
             = coll Run.kiosk "order"
               ++ [{| _id := o;
                      fields :=
                        [("email",
                          VStr (CheckoutRequest.email Run.three_gums));
                         ("items", VList line_items);
                         ("total", VFloat total);
                         ("status", VStr "created")] |}]
          /\ List.length line_items
             = List.length (CheckoutRequest.items Run.three_gums)).
Proof.
  split.
  - split; [vm_compute; reflexivity|].
    split; [vm_compute; reflexivity|].
    split; [vm_compute; reflexivity|].
    apply (fast_checkout_total Run.float_of_str Run.new_oid Run.shop
             Run.two_lines [Run.shirt; Run.socks] (PyFloat.of_Z 35));
      vm_compute; reflexivity.
  - split; [vm_compute; reflexivity|].
    split; [vm_compute; reflexivity|].
    split; [vm_compute; reflexivity|].
    split; [vm_compute; reflexivity|].
    apply (fast_checkout_total Run.float_of_str Run.new_oid Run.kiosk
             Run.three_gums [Run.gum]
             (PyFloat.mul (PyFloat.dec 1 1) (PyFloat.of_Z 3)));
      vm_compute; reflexivity.
Defined.

(** C2 fails as stated: the second item names no product, and the request
    ends in the [OverflowError] of the first item, a 500. *)
Lemma fast_checkout_huge_then_absent :
  ~ unresolved_gives_4xx Run.float_of_str Run.new_oid
      Run.shop Run.huge_then_absent.
Proof.
  unfold unresolved_gives_4xx. intros H.
  assert (E : Exists (fun item =>
                        resolve Run.shop (CheckoutItem.product_id item)
                        = None)
                     (CheckoutRequest.items Run.huge_then_absent)).
  { apply Exists_cons_tl, Exists_cons_hd. vm_compute. reflexivity. }
  specialize (H E). vm_compute in H. destruct H as [_ H]. now elim H.
Qed.

(** A request whose second item names no product is answered with 400 and
    leaves the store without an order. *)
Lemma fast_checkout_unresolved_absent :
  Exists (fun item => resolve Run.shop (CheckoutItem.product_id item) = None)
         (CheckoutRequest.items Run.with_absent)
  /\ Forall (line_computes Run.float_of_str Run.shop)
            (CheckoutRequest.items Run.with_absent)
  /\ status (fst (fast_checkout Run.float_of_str Run.new_oid Run.with_absent
                    (Some Run.shop))) = 400
  /\ exists s',
      snd (fast_checkout Run.float_of_str Run.new_oid Run.with_absent
             (Some Run.shop)) = Some s'
      /\ collections s' = collections Run.shop.
Proof.
  assert (Hex : Exists (fun item =>
                          resolve Run.shop (CheckoutItem.product_id item)
                          = None)
                       (CheckoutRequest.items Run.with_absent)).
  { apply Exists_cons_tl, Exists_cons_hd. vm_compute. reflexivity. }
  assert (Hall : Forall (line_computes Run.float_of_str Run.shop)
                        (CheckoutRequest.items Run.with_absent)).
  { repeat constructor; intros prod R; vm_compute in R;
      try discriminate; injection R as <-;
      eexists; eexists; split; vm_compute; reflexivity. }
  destruct (fast_checkout_unresolved Run.float_of_str Run.new_oid Run.shop
              Run.with_absent Hex) as (Hsame & _ & H400 & _).
  split; [exact Hex|]. split; [exact Hall|].
  split; [exact (H400 Hall)|exact Hsame].
Defined.

(** C3, at the failing input: a rating of 7 passes the model of
    [POST /reviews], which declares no bounds; the handler runs and the
    review is stored, although [Review] of [schemas.py] rejects it. *)
Theorem post_reviews_accepts_rating_7 :
  Review.validate Run.review_7 = None
  /\ ReviewIn.validate Run.review_7 = Some Run.review_7
  /\ post_reviews Run.new_oid Run.review_7 (Some Run.shop)
     = (Ok [("_id", VStr "000000000000000000000081")],
        Some {| collections :=
                  [("product", [Run.shirt; Run.socks; Run.sticker]);
                   ("review",
                    [{| _id := Run.oid_of_N 129;
                        fields := [("product_id", VStr Run.shirt_id);
                                   ("user_name", VStr "ann");
                                   ("rating", VInt 7);
                                   ("comment", VNone)] |}])];
                oplog := [OpFindOne "product" (Run.oid_of_N 1);
                          OpInsert "review"] |}).
Proof. repeat split; vm_compute; reflexivity. Qed.

(** C4, at the failing input: an item of size XXL and an item of quantity
    0 pass the model of [POST /checkout], which declares no constraint on
    either field; both products are looked up and an order is written,
    although [OrderItem] of [schemas.py] rejects both items. *)
Theorem post_checkout_accepts_bad_items :
  OrderItem.validate Run.item_xxl = None
  /\ OrderItem.validate Run.item_zero = None
  /\ CheckoutRequest.validate Run.bad_items
     = Some {| CheckoutRequest.email := "ann@example.org";
               CheckoutRequest.items := [Run.item Run.shirt_id (Some "XXL") 1;
                                         Run.item Run.socks_id None 0] |}
  /\ exists s',
      post_checkout Run.float_of_str Run.new_oid Run.bad_items (Some Run.shop)
      = (Ok [("order_id", VStr "000000000000000000000082");
             ("total", VFloat (PyFloat.of_Z 10))], Some s')
      /\ List.length (coll s' "order") = 1%nat
      /\ oplog s' = [OpFindOne "product" (Run.oid_of_N 1);
                     OpFindOne "product" (Run.oid_of_N 2);
                     OpInsert "order"].
Proof.
  split; [vm_compute; reflexivity|].
  split; [vm_compute; reflexivity|].
  split; [vm_compute; reflexivity|].
  eexists. split; [vm_compute; reflexivity|].
  split; vm_compute; reflexivity.
Qed.



(** Seeding an empty store twice leaves the three samples, and seeding a
    store that has products changes none of its collections. *)
Lemma seed_products_idempotent_witness :
  coll Run.empty_store "product" = []
  /\ coll Run.shop "product" <> []
  /\ (exists s',
         seed_products Run.new_oid (Some Run.empty_store)
         = (Ok [("seeded", VBool true); ("count", VInt 3)], Some s')
         /\ map fields (coll s' "product") = sample
         /\ List.length (coll s' "product") = 3%nat)
  /\ (exists s',
         seed_products Run.new_oid (Some Run.shop)
         = (Ok [("seeded", VBool false);
                ("message", VStr "Products already exist")], Some s')
         /\ collections s' = collections Run.shop)
  /\ (exists s',
         repeat_seed Run.new_oid 2 (Some Run.empty_store) = Some s'
         /\ map fields (coll s' "product") = sample
         /\ List.length (coll s' "product") = 3%nat).
Proof.
  assert (E : coll Run.empty_store "product" = []) by reflexivity.
  assert (N : coll Run.shop "product" <> []) by (vm_compute; discriminate).
  split; [exact E|]. split; [exact N|]. split; [|split].
  - exact (proj1 (seed_products_idempotent Run.new_oid Run.empty_store) E).
  - exact (proj1 (proj2 (seed_products_idempotent Run.new_oid Run.shop)) N).
  - destruct (proj2 (proj2 (seed_products_idempotent Run.new_oid
                              Run.empty_store)) 1%nat)
      as (s' & R & Hempty & _).
    exists s'. split; [exact R|]. exact (Hempty E).
Defined.

(** C8 fails as stated: with an empty [category] every product comes
    back, whatever its category. *)
Lemma list_products_empty_category_returns_all :
  ~ category_filter_exact Run.shop None "".
Proof.
  unfold category_filter_exact. vm_compute. discriminate.
Qed.

Lemma list_products_category_casual :
  "Casual" <> ""
  /\ fst (list_products None (Some "Casual") (Some Run.shop))
     = Ok (map serialize
             (filter (fun d => has d "category" "Casual" && true)
                     (coll Run.shop "product"))).
Proof.
  split; [discriminate|].
  apply (list_products_category Run.shop None "Casual"). discriminate.
Defined.


(** ** Further runs *)

(** The socks are fetched back under the string form of their id. *)
Lemma get_product_round_trip_socks :
  In Run.socks (coll Run.shop "product")
  /\ NoDup (map _id (coll Run.shop "product"))
  /\ List.length (_id Run.socks) = 12%nat
  /\ get_product (str_oid (_id Run.socks)) (Some Run.shop)
     = (Ok (("_id", VStr (str_oid (_id Run.socks))) :: fields Run.socks),
        Some (logged (OpFindOne "product" (_id Run.socks)) Run.shop)).
Proof.
  assert (Hin : In Run.socks (coll Run.shop "product"))
    by (right; left; reflexivity).
  assert (Hnd : NoDup (map _id (coll Run.shop "product"))).
  { vm_compute. repeat constructor; intros H; cbn in H;
      intuition discriminate. }
  split; [exact Hin|]. split; [exact Hnd|]. split; [reflexivity|].
  now apply get_product_round_trip.
Defined.

Lemma post_reviews_unknown_product_absent :
  resolve Run.shop (ReviewIn.product_id Run.review_absent) = None
  /\ status (fst (post_reviews Run.new_oid Run.review_absent (Some Run.shop)))
     = 400
  /\ exists s',
      snd (post_reviews Run.new_oid Run.review_absent (Some Run.shop))
      = Some s'
      /\ collections s' = collections Run.shop.
Proof.
  split; [vm_compute; reflexivity|].
  apply (post_reviews_unknown_product Run.new_oid Run.shop Run.review_absent).
  vm_compute. reflexivity.
Defined.

(** A second review of the shirt is listed after the first. *)
Lemma post_reviews_then_get_reviews_shirt :
  resolve Run.shop_reviewed (ReviewIn.product_id Run.review_7)
  = Some Run.shirt
  /\ fst (get_reviews Run.shirt_id (Some Run.shop_reviewed))
     = Ok [("_id", VStr "000000000000000000000009")
           :: ReviewIn.model_dump Run.review_5]
  /\ exists o s',
      post_reviews Run.new_oid Run.review_7 (Some Run.shop_reviewed)
      = (Ok [("_id", VStr (str_oid o))], Some s')
      /\ fst (get_reviews Run.shirt_id (Some s'))
         = Ok ([("_id", VStr "000000000000000000000009")
                :: ReviewIn.model_dump Run.review_5]
               ++ if String.eqb (ReviewIn.product_id Run.review_7)
                       Run.shirt_id
                  then [("_id", VStr (str_oid o))
                        :: ReviewIn.model_dump Run.review_7]
                  else []).
Proof.
  assert (R : resolve Run.shop_reviewed (ReviewIn.product_id Run.review_7)
              = Some Run.shirt) by (vm_compute; reflexivity).
  assert (B : fst (get_reviews Run.shirt_id (Some Run.shop_reviewed))
              = Ok [("_id", VStr "000000000000000000000009")
                    :: ReviewIn.model_dump Run.review_5])
    by (vm_compute; reflexivity).
  split; [exact R|]. split; [exact B|].
  destruct (post_reviews_then_get_reviews Run.new_oid Run.shop_reviewed
              Run.review_7 Run.shirt R) as (o & s' & E & H).
  exists o, s'. split; [exact E|]. exact (H Run.shirt_id _ B).
Defined.

(** The order stored for the three items at 0.1 has one line of
    0.30000000000000004 and the total 0.3. *)
Lemma fast_checkout_order_invariant_three_gums :
  exists resp db',
    fast_checkout Run.float_of_str Run.new_oid Run.three_gums
      (Some Run.kiosk)
    = (Ok resp, db')
    /\ dict_get resp "total" = Some (VFloat (PyFloat.dec 3 1))
    /\ exists total o line_items s',
        rounded_to_cents
          (fold_left (fun acc line => PyFloat.add acc (line_total_of line))
                     line_items PyFloat.zero)
          total
        /\ db' = Some s'
        /\ resp = [("order_id", VStr (str_oid o)); ("total", VFloat total)]
        /\ coll s' "order"
           = coll Run.kiosk "order"
             ++ [{| _id := o;
                    fields :=
                      [("email", VStr (CheckoutRequest.email Run.three_gums));
                       ("items", VList line_items);
                       ("total", VFloat total);
                       ("status", VStr "created")] |}]
        /\ Forall2 line_for (CheckoutRequest.items Run.three_gums)
                   line_items.
Proof.
  eexists. eexists.
  assert (E : fast_checkout Run.float_of_str Run.new_oid Run.three_gums
                (Some Run.kiosk)
              = (Ok (match fst (fast_checkout Run.float_of_str Run.new_oid
                                  Run.three_gums (Some Run.kiosk)) with
                     | Ok r => r
                     | _ => []
                     end),
                 snd (fast_checkout Run.float_of_str Run.new_oid
                        Run.three_gums (Some Run.kiosk))))
    by (vm_compute; reflexivity).
  split; [exact E|]. split; [vm_compute; reflexivity|].
  exact (fast_checkout_order_invariant Run.float_of_str Run.new_oid Run.kiosk
           Run.three_gums _ _ E).
Defined.

(** The shirt is looked up, the absent product is looked up and answered
    with 400, the socks are never asked for.  An id of twenty-four spaces
    is looked up as well, as the identifier of no bytes. *)
Lemma fast_checkout_stops_early :
  (Forall (fun item =>
             resolve Run.shop (CheckoutItem.product_id item) <> None
             /\ line_computes Run.float_of_str Run.shop item)
          [Run.item Run.shirt_id None 1]
   /\ resolve Run.shop
        (CheckoutItem.product_id (Run.item Run.absent_id None 1))
      = None
   /\ fast_checkout Run.float_of_str Run.new_oid
        {| CheckoutRequest.email := "ann@example.org";
           CheckoutRequest.items :=
             [Run.item Run.shirt_id None 1]
             ++ Run.item Run.absent_id None 1
                :: [Run.item Run.socks_id None 2] |}
        (Some Run.shop)
      = (HTTPException 400
           (unresolved_detail (Run.item Run.absent_id None 1)),
         Some {| collections := collections Run.shop;
                 oplog := oplog Run.shop
                          ++ lookups ([Run.item Run.shirt_id None 1]
                                      ++ [Run.item Run.absent_id None 1]) |}))
  /\ (resolve Run.shop
        (CheckoutItem.product_id (Run.item Run.blank_id None 1))
      = None
      /\ unresolved_detail (Run.item Run.blank_id None 1)
         = String.append "Invalid product: " Run.blank_id
      /\ lookups ([] ++ [Run.item Run.blank_id None 1])
         = [OpFindOne "product" []]
      /\ fast_checkout Run.float_of_str Run.new_oid
           {| CheckoutRequest.email := "ann@example.org";
              CheckoutRequest.items :=
                [] ++ Run.item Run.blank_id None 1
                      :: [Run.item Run.socks_id None 2] |}
           (Some Run.shop)
         = (HTTPException 400
              (unresolved_detail (Run.item Run.blank_id None 1)),
            Some {| collections := collections Run.shop;
                    oplog := oplog Run.shop
                             ++ lookups ([] ++ [Run.item Run.blank_id
                                                  None 1]) |})).
Proof.
  assert (G : Forall (fun item =>
                        resolve Run.shop (CheckoutItem.product_id item)
                        <> None
                        /\ line_computes Run.float_of_str Run.shop item)
                     [Run.item Run.shirt_id None 1]).
  { repeat constructor; [vm_compute; discriminate|].
    intros prod R. vm_compute in R. injection R as <-.
    eexists. eexists. split; vm_compute; reflexivity. }
  assert (B : resolve Run.shop
                (CheckoutItem.product_id (Run.item Run.absent_id None 1))
              = None) by (vm_compute; reflexivity).
  assert (W : resolve Run.shop
                (CheckoutItem.product_id (Run.item Run.blank_id None 1))
              = None) by (vm_compute; reflexivity).
  split.
  - split; [exact G|]. split; [exact B|].
    exact (fast_checkout_stops_at_first_unresolved Run.float_of_str
             Run.new_oid Run.shop "ann@example.org" _ _ _ G B).
  - split; [exact W|]. split; [vm_compute; reflexivity|].
    split; [vm_compute; reflexivity|].
    exact (fast_checkout_stops_at_first_unresolved Run.float_of_str
             Run.new_oid Run.shop "ann@example.org" [] _ _
             (Forall_nil _) W).
Defined.

Lemma serve_effect_get_reviews :
  snd (serve Run.float_of_str Run.new_oid (GetReviews Run.shirt_id)
         (Some Run.shop_reviewed))
  = Some (logged (OpFind "review" [("product_id", VStr Run.shirt_id)])
                 Run.shop_reviewed)
  /\ collections
       (logged (OpFind "review" [("product_id", VStr Run.shirt_id)])
               Run.shop_reviewed)
     = collections Run.shop_reviewed.
Proof.
  assert (E : snd (serve Run.float_of_str Run.new_oid
                     (GetReviews Run.shirt_id) (Some Run.shop_reviewed))
              = Some (logged (OpFind "review"
                                [("product_id", VStr Run.shirt_id)])
                             Run.shop_reviewed)) by reflexivity.
  split; [exact E|].
  exact (proj2 (serve_effect Run.float_of_str Run.new_oid
                  (GetReviews Run.shirt_id) Run.shop_reviewed) _ E).
Defined.

Lemma reviews_reference_products_shop_reviewed :
  reviews_reference_products Run.shop_reviewed.
Proof.
  repeat constructor. exists Run.shirt_id.
  split; [reflexivity|vm_compute; discriminate].
Defined.

(** Reviews, a seed, a checkout with items the schema would reject and a
    review of an absent product leave every review pointing at a product. *)
Lemma serve_all_keeps_references_run :
  reviews_reference_products Run.shop_reviewed
  /\ exists s',
      serve_all Run.float_of_str Run.new_oid
        [PostReviews Run.review_7; PostSeed; PostCheckout Run.bad_items;
         PostReviews Run.review_absent; GetReviews Run.shirt_id]
        (Some Run.shop_reviewed) = Some s'
      /\ reviews_reference_products s'.
Proof.
  split; [exact reviews_reference_products_shop_reviewed|].
  apply serve_all_keeps_references.
  exact reviews_reference_products_shop_reviewed.
Defined.

(** Seeding twice around a checkout leaves the three samples. *)
Lemma serve_all_keeps_catalogue_run :
  catalogue_is_seed Run.empty_store
  /\ exists s',
      serve_all Run.float_of_str Run.new_oid
        [PostSeed; PostCheckout Run.bad_items; PostSeed; GetProducts None None]
        (Some Run.empty_store) = Some s'
      /\ catalogue_is_seed s'.
Proof.
  assert (H : catalogue_is_seed Run.empty_store) by (left; reflexivity).
  split; [exact H|]. now apply serve_all_keeps_catalogue.
Defined.

Lemma seed_then_list_products_empty_store :
  coll Run.empty_store "product" = []
  /\ exists s1 prods s2,
      snd (seed_products Run.new_oid (Some Run.empty_store)) = Some s1
      /\ list_products None None (Some s1) = (Ok prods, Some s2)
      /\ map (@tl (string * value)) prods = sample
      /\ Forall (fun p => exists id, hd_error p = Some ("_id", VStr id)) prods.
Proof.
  split; [reflexivity|].
  now apply seed_then_list_products.
Defined.

(** A malformed id lists no reviews. *)
Lemma get_reviews_unknown_product_xyz :
  reviews_reference_products Run.shop_reviewed
  /\ resolve Run.shop_reviewed "xyz" = None
  /\ fst (get_reviews "xyz" (Some Run.shop_reviewed)) = Ok []
  /\ status (fst (get_reviews "xyz" (Some Run.shop_reviewed))) = 200.
Proof.
  split; [exact reviews_reference_products_shop_reviewed|].
  split; [reflexivity|].
  apply get_reviews_unknown_product;
    [exact reviews_reference_products_shop_reviewed|reflexivity].
Defined.
